(** * Metrics aggregation and readiness scoring of the Health Coach dashboard

    A shallow embedding of the computations of the web dashboard (the [App]
    component and the chart components [TrendLine.jsx] and [StackedBar.jsx]):
    date alignment, sleep-stage aggregation, the readiness score, the
    three-day projection and the coercion of chart series.

    Modelling conventions.
    - A JavaScript number of the scoring engine is an exact rational ([Q]):
      the engine's inputs are finite JSON numbers, and IEEE-754 rounding,
      overflow and signed zeros are idealised away.  Equalities between
      computed numbers are therefore stated with [==] ([Qeq]).  Sums of
      whole numbers are exact in the program as well; a statement that
      compares sums taken in different orders is made for whole numbers.
    - A field that may be [null] or [undefined] is an [option].
    - A string is a [string] whose characters are the code units below 256;
      the default ordering of [Array.prototype.sort] (code-unit order) is then
      the lexicographic order [String.le].
    - An object used as a dictionary is a [gmap] keyed by strings; keys are
      taken not to collide with the property names of [Object.prototype].
    - A [TypeError] is the outcome [None] of an [option]. *)

From Stdlib Require Import QArith Qround Qminmax Lqa ZArith NArith Lia Ascii String.
From stdpp Require Import base option list strings sorting gmap.

Open Scope Q_scope.

(** ** JavaScript primitives used by the dashboard *)

Module JS.

(** [x || 0] on an optional number: [null], [undefined] and [0] are falsy. *)
Definition orZero (o : option Q) : Q :=
  match o with
  | Some q => if Qeq_bool q 0 then 0 else q
  | None => 0
  end.

(** Truthiness of a number and of a string. *)
Definition truthyNum (q : Q) : bool := negb (Qeq_bool q 0).
Definition truthyStr (s : string) : bool :=
  match s with EmptyString => false | String _ _ => true end.

(** The comparison operators [<] and [>] on numbers. *)
Definition ltb (x y : Q) : bool := negb (Qle_bool y x).
Definition gtb (x y : Q) : bool := ltb y x.

(** [Math.max], [Math.min] and [Math.round] (round half up). *)
Definition Math_max (x y : Q) : Q := if Qle_bool x y then y else x.
Definition Math_min (x y : Q) : Q := if Qle_bool x y then x else y.
Definition Math_round (x : Q) : Z := Qfloor (x + 0.5).

(** [xs.reduce((a,b)=>a+b, 0)] and [xs.length] as a number. *)
Definition sum (xs : list Q) : Q := fold_left Qplus xs 0.
Definition len {A} (xs : list A) : Q := inject_Z (Z.of_nat (length xs)).

(** [xs.slice(-k)]: the last [k] elements, all of them when there are fewer. *)
Definition slice_last {A} (k : nat) (xs : list A) : list A :=
  drop (length xs - k) xs.

(** [[...new Set(xs)]]: the distinct elements in order of first occurrence. *)
Definition uniq (xs : list string) : list string :=
  fold_left (fun acc x => if decide (x ∈ acc) then acc else acc ++ [x]) xs [].

(** [xs.sort()] on strings: ascending code-unit order. *)
Definition sort (xs : list string) : list string := merge_sort String.le xs.

End JS.

(** ** Data model: the rows returned by the backend *)

Record SleepRow := { date : string; stage : string; mins : option Q }.

Record HRRow :=
  { hr_date : string; avg_bpm : option Q; min_bpm : option Q; max_bpm : option Q }.

Record StepsRow := { steps_date : string; steps : option Q }.

Record CalRow := { cal_date : string; kcal : option Q }.

Record HRSample := { ts : string; sample_bpm : option Q }.

(** The component state: one snapshot of the five fetched series. *)
Record Snapshot := {
  sleepRows : list SleepRow;
  hr7 : list HRRow;
  hrIntra : list HRSample;
  steps7 : list StepsRow;
  cal7 : list CalRow
}.

(** ** Date alignment and stage aggregation *)

(** [sleepDates]: distinct dates of the sleep rows, sorted, last seven. *)
Definition sleepDates (rows : list SleepRow) : list string :=
  JS.slice_last 7 (JS.sort (JS.uniq (map date rows))).

(** One iteration of the [forEach] that fills the date/stage dictionary. *)
Definition sleepByDate_step (m : gmap string (gmap string Q)) (r : SleepRow)
  : gmap string (gmap string Q) :=
  let bucket := default ∅ (m !! date r) in
  <[date r := <[stage r := JS.orZero (bucket !! stage r) + JS.orZero (mins r)]> bucket]> m.

Definition sleepByDate (rows : list SleepRow) : gmap string (gmap string Q) :=
  fold_left sleepByDate_step rows ∅.

(** [sleepByDate[d]?.[s] || 0]. *)
Definition stageMinutes (byDate : gmap string (gmap string Q)) (d s : string) : Q :=
  JS.orZero (byDate !! d ≫= fun bucket => bucket !! s).

Definition sleepStages : list string := ["Light sleep"; "Deep sleep"; "REM sleep"].

(** Whether the minutes of a row are a whole number (or missing). *)
Definition wholeMinutes (r : SleepRow) : bool :=
  match mins r with
  | Some q => Pos.eqb (Qden (Qred q)) 1
  | None => true
  end.

(** Whether the stage of a row is one of the three sleep stages. *)
Definition isSleepStage (r : SleepRow) : bool :=
  bool_decide (stage r ∈ sleepStages).

(** The [reduce] over the three sleep stages: total sleep minutes of a date. *)
Definition totalSleepMinutes (byDate : gmap string (gmap string Q)) (d : string) : Q :=
  fold_left (fun a s => a + stageMinutes byDate d s) sleepStages 0.

(** The rounded number behind the headline [kpiSleepMin]; [None] is the
    placeholder ["--"]. *)
Definition kpiSleepMin (rows : list SleepRow) : option Z :=
  match last (sleepDates rows) with
  | Some d =>
      if JS.truthyStr d
      then Some (JS.Math_round (totalSleepMinutes (sleepByDate rows) d))
      else None
  | None => None
  end.

(** ** The readiness scorer (the [readiness] memo of the dashboard) *)

Definition goal : Q := 8 * 60.

(** [sleepMin]: total sleep minutes of the last aligned date, [0] when the
    last date is missing or falsy. *)
Definition sleepMin (rows : list SleepRow) : Q :=
  match last (sleepDates rows) with
  | Some d =>
      if JS.truthyStr d then totalSleepMinutes (sleepByDate rows) d else 0
  | None => 0
  end.

Definition sleepScore (sleepMinutes : Q) : Q :=
  JS.Math_max 0 (JS.Math_min 1 (if JS.truthyNum goal then sleepMinutes / goal else 0.5)).

(** [hr7.map(r => r.avg_bpm).filter(v => v != null)]. *)
Definition hrAvg (hr : list HRRow) : list Q := omap avg_bpm hr.

Definition weeklyAvg (hr : list HRRow) : Q :=
  if JS.truthyNum (JS.len (hrAvg hr))
  then JS.sum (hrAvg hr) / JS.len (hrAvg hr)
  else 0.

(** [hr7[hr7.length-1].avg_bpm ?? weeklyAvg], guarded by [hrAvg.length];
    reading a field of a missing last row would be a [TypeError]. *)
Definition yesterday (hr : list HRRow) : option Q :=
  if JS.truthyNum (JS.len (hrAvg hr))
  then r ← last hr; Some (default (weeklyAvg hr) (avg_bpm r))
  else Some (weeklyAvg hr).

Definition hrScore (yesterdayBpm weekly : Q) : Q :=
  JS.Math_max 0 (JS.Math_min 1 (1 - ((yesterdayBpm - weekly) / 20))).

(** [steps7.map(r => r.steps || 0)]. *)
Definition stepsVals (st : list StepsRow) : list Q :=
  map (fun r => JS.orZero (steps r)) st.

Definition sAvg (st : list StepsRow) : Q :=
  if JS.truthyNum (JS.len (stepsVals st))
  then JS.sum (stepsVals st) / JS.len (stepsVals st)
  else 0.

(** [sAvg ? stepsVals[stepsVals.length-1] / sAvg : 1].  The list is empty
    only when [sAvg] is [0], so the last element exists whenever it is read. *)
Definition rel (st : list StepsRow) : Q :=
  if JS.truthyNum (sAvg st)
  then match last (stepsVals st) with
       | Some lastDay => lastDay / sAvg st
       | None => 1
       end
  else 1.

Definition stepsScore (r : Q) : Q :=
  if JS.gtb r 1.35 then 0.8
  else if JS.ltb r 0.6 then 0.86
  else if JS.ltb r 0.85 || JS.gtb r 1.15 then 0.94
  else 1.0.

(** The three component scores, in the order sleep, heart rate, steps. *)
Record Components := { c_sleep : Q; c_hr : Q; c_steps : Q }.

Definition components (s : Snapshot) : option Components :=
  y ← yesterday (hr7 s);
  Some {| c_sleep := sleepScore (sleepMin (sleepRows s));
          c_hr := hrScore y (weeklyAvg (hr7 s));
          c_steps := stepsScore (rel (steps7 s)) |}.

Definition composite (c : Components) : Z :=
  JS.Math_round (100 * (0.5 * c_sleep c + 0.3 * c_hr c + 0.2 * c_steps c)).

Definition readiness (s : Snapshot) : option Z := composite <$> components s.

(** ** The readiness projection (tail of the projection dataset) *)

(** The forecast is computed from the list [hist] of historical scores, each
    of which is the result of a [Math.round]. *)
Definition lastR (hist : list Z) : Z := default 70%Z (last hist).

Definition meanR (hist : list Z) : Z :=
  if JS.truthyNum (JS.len hist)
  then JS.Math_round (inject_Z (fold_left Z.add hist 0%Z) / JS.len hist)
  else 70%Z.

Definition blend (prev mean : Z) : Z :=
  JS.Math_round (0.6 * inject_Z prev + 0.4 * inject_Z mean).

Definition proj1 (hist : list Z) : Z := blend (lastR hist) (meanR hist).
Definition proj2 (hist : list Z) : Z := blend (proj1 hist) (meanR hist).
Definition proj3 (hist : list Z) : Z := blend (proj2 hist) (meanR hist).

Definition projection (hist : list Z) : list Z :=
  JS.slice_last 3 hist ++ [proj1 hist; proj2 hist; proj3 hist].

Definition emptySnapshot : Snapshot :=
  {| sleepRows := []; hr7 := []; hrIntra := []; steps7 := []; cal7 := [] |}.

(** A sample snapshot: three nights of sleep, three heart-rate records (one
    without a reading) and a week of steps ending in a very active day. *)
Definition sampleSleep : list SleepRow :=
  [ {| date := "2024-05-02"; stage := "Light sleep"; mins := Some 230 |};
    {| date := "2024-05-03"; stage := "Light sleep"; mins := Some 120 |};
    {| date := "2024-05-01"; stage := "Deep sleep"; mins := Some 80 |};
    {| date := "2024-05-03"; stage := "Awake"; mins := Some 14 |};
    {| date := "2024-05-03"; stage := "Deep sleep"; mins := Some 92 |};
    {| date := "2024-05-03"; stage := "Light sleep"; mins := Some 130 |};
    {| date := "2024-05-03"; stage := "REM sleep"; mins := Some 95 |};
    {| date := "2024-05-02"; stage := "Out-of-bed"; mins := None |} ].

Definition sampleHR : list HRRow :=
  [ {| hr_date := "2024-05-01"; avg_bpm := Some 60; min_bpm := Some 48; max_bpm := Some 110 |};
    {| hr_date := "2024-05-02"; avg_bpm := None; min_bpm := None; max_bpm := None |};
    {| hr_date := "2024-05-03"; avg_bpm := Some 62; min_bpm := Some 50; max_bpm := Some 121 |} ].

Definition sampleSteps : list StepsRow :=
  map (fun p => {| steps_date := p.1; steps := p.2 |})
    [ ("2024-04-27", Some 8000); ("2024-04-28", Some 8000); ("2024-04-29", Some 8000);
      ("2024-04-30", Some 8000); ("2024-05-01", Some 8000); ("2024-05-02", Some 8000);
      ("2024-05-03", Some 20000) ].

Definition sampleSnapshot (cal : list CalRow) (intra : list HRSample) : Snapshot :=
  {| sleepRows := sampleSleep; hr7 := sampleHR; hrIntra := intra;
     steps7 := sampleSteps; cal7 := cal |}.

(** ** Chart series coercion ([TrendLine.jsx], [StackedBar.jsx]) *)

Module Chart.

(** A number as the chart components can see it: besides the finite values
    there are [NaN] and the two infinities ([Number("-Infinity")]). *)
Inductive number := Fin (q : Q) | NaN | Infinity (negative : bool).

(** A primitive value of a data series. *)
Inductive value :=
| Undefined
| Null
| Bool (b : bool)
| Num (n : number)
| Str (s : string).

(** *** [Number(v)] *)

(** White space and line terminators among the code units below 256:
    TAB, LF, VT, FF, CR, SP and NBSP. *)
Definition isWhiteSpace (c : ascii) : bool :=
  bool_decide (N_of_ascii c ∈ [9; 10; 11; 12; 13; 32; 160]%N).

Fixpoint trimStart (cs : list ascii) : list ascii :=
  match cs with
  | c :: cs' => if isWhiteSpace c then trimStart cs' else cs
  | [] => []
  end.

Definition trim (cs : list ascii) : list ascii :=
  rev (trimStart (rev (trimStart cs))).

(** Value of a digit in the given base; hexadecimal digits in either case. *)
Definition digitOf (base : N) (c : ascii) : option N :=
  let n := N_of_ascii c in
  let d :=
    if (48 <=? n)%N && (n <=? 57)%N then Some (n - 48)%N
    else if (97 <=? n)%N && (n <=? 102)%N then Some (n - 87)%N
    else if (65 <=? n)%N && (n <=? 70)%N then Some (n - 55)%N
    else None in
  d ≫= fun v => if (v <? base)%N then Some v else None.

(** Reads the longest prefix of digits: the value read so far, the number of
    digits read, and the rest of the input. *)
Fixpoint takeDigits (base : N) (cs : list ascii) (acc : N) (count : nat)
  : N * nat * list ascii :=
  match cs with
  | c :: cs' =>
      match digitOf base c with
      | Some d => takeDigits base cs' (acc * base + d)%N (S count)
      | None => (acc, count, cs)
      end
  | [] => (acc, count, [])
  end.

Definition pow10 (e : Z) : Q := Qpower 10 e.

(** [ExponentPart_opt] at the end of the literal: the decimal exponent. *)
Definition parseExponent (cs : list ascii) : option Z :=
  match cs with
  | [] => Some 0%Z
  | e :: cs' =>
      if bool_decide (e = "e"%char) || bool_decide (e = "E"%char)
      then
        let '(neg, ds) :=
          match cs' with
          | "-"%char :: ds => (true, ds)
          | "+"%char :: ds => (false, ds)
          | _ => (false, cs')
          end in
        match takeDigits 10 ds 0 0 with
        | (_, O, _) => None
        | (v, S _, []) => Some (if neg then - Z.of_N v else Z.of_N v)%Z
        | (_, S _, _ :: _) => None
        end
      else None
  end.

(** [StrUnsignedDecimalLiteral]. *)
Definition parseUnsignedDecimal (cs : list ascii) : option number :=
  if bool_decide (cs = list_ascii_of_string "Infinity") then Some (Infinity false)
  else
    let '(ip, ni, r1) := takeDigits 10 cs 0 0 in
    let '(fp, nf, r2) :=
      match r1 with
      | "."%char :: r => takeDigits 10 r 0 0
      | _ => (0%N, O, r1)
      end in
    if Nat.eqb (ni + nf) 0 then None
    else
      e ← parseExponent r2;
      Some (Fin ((inject_Z (Z.of_N ip) + inject_Z (Z.of_N fp) * pow10 (- Z.of_nat nf))
                 * pow10 e)).

Definition negate (n : number) : number :=
  match n with
  | Fin q => Fin (- q)
  | NaN => NaN
  | Infinity s => Infinity (negb s)
  end.

(** [NonDecimalIntegerLiteral]: [0x], [0o] and [0b] prefixes, no sign. *)
Definition parseNonDecimal (cs : list ascii) : option number :=
  match cs with
  | "0"%char :: p :: ds =>
      base ←
        (if bool_decide (p = "x"%char) || bool_decide (p = "X"%char) then Some 16%N
         else if bool_decide (p = "o"%char) || bool_decide (p = "O"%char) then Some 8%N
         else if bool_decide (p = "b"%char) || bool_decide (p = "B"%char) then Some 2%N
         else None);
      match takeDigits base ds 0 0 with
      | (v, S _, []) => Some (Fin (inject_Z (Z.of_N v)))
      | _ => None
      end
  | _ => None
  end.

(** [StringToNumber]: the empty or blank string is [0], a string that is
    not a numeric literal is [NaN]. *)
Definition StringToNumber (s : string) : number :=
  match trim (list_ascii_of_string s) with
  | [] => Fin 0
  | cs =>
      match parseNonDecimal cs with
      | Some n => n
      | None =>
          default NaN
            match cs with
            | "-"%char :: r => negate <$> parseUnsignedDecimal r
            | "+"%char :: r => parseUnsignedDecimal r
            | _ => parseUnsignedDecimal cs
            end
      end
  end.

Definition Number (v : value) : number :=
  match v with
  | Undefined => NaN
  | Null => Fin 0
  | Bool b => if b then Fin 1 else Fin 0
  | Num n => n
  | Str s => StringToNumber s
  end.

Definition truthy (v : value) : bool :=
  match v with
  | Undefined | Null => false
  | Bool b => b
  | Num (Fin q) => JS.truthyNum q
  | Num NaN => false
  | Num (Infinity _) => true
  | Str s => JS.truthyStr s
  end.

(** [v == null]: true of [null] and [undefined] only. *)
Definition looseNull (v : value) : bool :=
  match v with Undefined | Null => true | _ => false end.

(** [v === '']. *)
Definition isEmptyStr (v : value) : bool :=
  match v with Str EmptyString => true | _ => false end.

(** *** The two [data] mappings *)

(** A dataset: its label and its (possibly missing) data array; the
    remaining fields are colours and line styles. *)
Record Dataset := { label : string; data : option (list value) }.

(** [TrendLine]: [v => (v == null || v === '' ? null : Number(v))]. *)
Definition trendEntry (v : value) : value :=
  if looseNull v || isEmptyStr v then Null else Num (Number v).

(** [StackedBar]: [v => Number(v || 0)]. *)
Definition barEntry (v : value) : value :=
  Num (Number (if truthy v then v else Num (Fin 0))).

Definition TrendLine (datasets : list Dataset) : list (string * list value) :=
  map (fun d => (label d, map trendEntry (default [] (data d)))) datasets.

Definition StackedBar (datasets : list Dataset) : list (string * list value) :=
  map (fun d => (label d, map barEntry (default [] (data d)))) datasets.

(** *** What each mapping does to an entry, in words *)

(** An entry that is [null], [undefined] or the empty string. *)
Definition absentOrEmpty (v : value) : Prop :=
  v = Undefined \/ v = Null \/ v = Str "".

(** A non-empty string that is not a numeric literal. *)
Definition nonNumericString (v : value) : Prop :=
  exists s, v = Str s /\ s <> "" /\ StringToNumber s = NaN.

(** [TrendLine]: absent and empty entries become [null], numbers are kept,
    every other entry becomes its [Number] (a non-empty string the number it
    spells, a boolean 1 or 0), and [NaN] comes out exactly for [NaN] and for
    non-numeric strings. *)
Definition trendSpec (v w : value) : Prop :=
  (absentOrEmpty v -> w = Null) /\
  (forall n, v = Num n -> w = Num n) /\
  (forall s, v = Str s -> s <> "" -> w = Num (StringToNumber s)) /\
  (forall b, v = Bool b -> w = Num (if b then Fin 1 else Fin 0)) /\
  (~ absentOrEmpty v -> w = Num (Number v)) /\
  (w = Num NaN <-> v = Num NaN \/ nonNumericString v).

(** [StackedBar]: absent and empty entries, [0] and [NaN] become [0], the
    other numbers are kept, every other entry becomes its [Number] (a
    non-empty string the number it spells, a boolean 1 or 0), the output is
    never [null], and [NaN] comes out exactly for non-numeric strings. *)
Definition barSpec (v w : value) : Prop :=
  (absentOrEmpty v -> w = Num (Fin 0)) /\
  (v = Num NaN -> w = Num (Fin 0)) /\
  (forall q, v = Num (Fin q) -> w = Num (Fin (if Qeq_bool q 0 then 0 else q))) /\
  (forall b, v = Num (Infinity b) -> w = Num (Infinity b)) /\
  (forall s, v = Str s -> s <> "" -> w = Num (StringToNumber s)) /\
  (forall b, v = Bool b -> w = Num (if b then Fin 1 else Fin 0)) /\
  (truthy v = true -> w = Num (Number v)) /\
  (truthy v = false -> w = Num (Fin 0)) /\
  w <> Null /\
  (w = Num NaN <-> nonNumericString v).

(** Equality of numbers up to the representation of a rational. *)
Definition number_equiv (a b : number) : Prop :=
  match a, b with
  | Fin p, Fin q => p == q
  | NaN, NaN => True
  | Infinity s, Infinity t => s = t
  | _, _ => False
  end.

End Chart.

(** ** The remaining series and headline values of the dashboard *)

(** A number and an optional number as chart entries; a missing reading is
    written [null] where the dashboard says so explicitly. *)
Definition numV (q : Q) : Chart.value := Chart.Num (Chart.Fin q).

Definition nullable (o : option Q) : Chart.value :=
  match o with Some q => numV q | None => Chart.Null end.

(** [sleepDatasets]: one stacked series per sleep stage, over the aligned
    dates. *)
Definition stageSeries (rows : list SleepRow) (s : string) : list Q :=
  map (fun d => stageMinutes (sleepByDate rows) d s) (sleepDates rows).

Definition sleepDatasets (rows : list SleepRow) : list Chart.Dataset :=
  [ {| Chart.label := "Light sleep";
       Chart.data := Some (map numV (stageSeries rows "Light sleep")) |};
    {| Chart.label := "Deep sleep";
       Chart.data := Some (map numV (stageSeries rows "Deep sleep")) |};
    {| Chart.label := "REM sleep";
       Chart.data := Some (map numV (stageSeries rows "REM sleep")) |} ].

(** The headline values; [None] is the placeholder ["--"].  The numbers are
    the ones shown, before the unit is appended or the digits are grouped. *)
Definition kpiHr (hr : list HRRow) : option Z :=
  if JS.truthyNum (JS.len hr)
  then r ← last hr; JS.Math_round <$> avg_bpm r
  else None.

Definition kpiSteps (st : list StepsRow) : option Q :=
  if JS.truthyNum (JS.len st)
  then r ← last st; Some (JS.orZero (steps r))
  else None.

Definition kpiCal (cal : list CalRow) : option Z :=
  if JS.truthyNum (JS.len cal)
  then r ← last cal; Some (JS.Math_round (JS.orZero (kcal r)))
  else None.

(** The trend series handed to [TrendLine]. *)
Definition hrLabels (hr : list HRRow) : list string := map hr_date hr.

Definition hrTrend (hr : list HRRow) : list Chart.Dataset :=
  [ {| Chart.label := "Avg"; Chart.data := Some (map (fun r => nullable (avg_bpm r)) hr) |};
    {| Chart.label := "Min"; Chart.data := Some (map (fun r => nullable (min_bpm r)) hr) |};
    {| Chart.label := "Max"; Chart.data := Some (map (fun r => nullable (max_bpm r)) hr) |} ].

Definition stepsLabels (st : list StepsRow) : list string := map steps_date st.

Definition stepsTrend (st : list StepsRow) : list Chart.Dataset :=
  [ {| Chart.label := "Steps"; Chart.data := Some (map numV (stepsVals st)) |} ].

Definition calLabels (cal : list CalRow) : list string := map cal_date cal.

Definition calVals (cal : list CalRow) : list Q :=
  map (fun r => JS.orZero (kcal r)) cal.

Definition calTrend (cal : list CalRow) : list Chart.Dataset :=
  [ {| Chart.label := "Total kcal"; Chart.data := Some (map numV (calVals cal)) |} ].

(** The data of the sleep-debt series: total sleep minutes minus 480, per
    aligned date. *)
Definition sleepDebt (rows : list SleepRow) : list Q :=
  map (fun d => totalSleepMinutes (sleepByDate rows) d - 480) (sleepDates rows).

(** ** The history behind the projection *)

(** [labels.indexOf(d)]: the first position of [d], if any. *)
Fixpoint indexOf (d : string) (labels : list string) : option nat :=
  match labels with
  | [] => None
  | l :: labels' => if bool_decide (l = d) then Some O else S <$> indexOf d labels'
  end.

(** [Math.max(0, hrLabels.indexOf(d))]: position [0] when the date is not a
    heart-rate label. *)
Definition hrIdx (hr : list HRRow) (d : string) : nat :=
  default O (indexOf d (hrLabels hr)).

(** The weekly mean of the history, with its own default. *)
Definition histWeekly (hr : list HRRow) : Q :=
  if JS.truthyNum (JS.len (hrAvg hr))
  then JS.sum (hrAvg hr) / JS.len (hrAvg hr)
  else 0.9.

(** The heart-rate term of a historical score: [0.9] when the indexed record
    is out of range or has no reading. *)
Definition histH (hr : list HRRow) (i : nat) : Q :=
  match hr !! i with
  | Some r =>
      match avg_bpm r with
      | Some v => JS.Math_max 0 (JS.Math_min 1 (1 - ((v - histWeekly hr) / 20)))
      | None => 0.9
      end
  | None => 0.9
  end.

(** The value [sVal] read for a historical score.  This is the one place
    where the dashboard tells [undefined] from [null]: in a division the
    first is [NaN] and the second is [0]. *)
Inductive Field := FUndefined | FNull | FNum (q : Q).

Section History.

(** Whether the missing steps count of the row at a position is [undefined]
    (the key is absent) rather than [null]. *)
Variable undefinedAt : nat -> bool.

Definition sVal (st : list StepsRow) (i : nat) : Field :=
  match st !! i with
  | Some r =>
      match steps r with
      | Some q => FNum q
      | None => if undefinedAt i then FUndefined else FNull
      end
  | None => FNum (JS.orZero (last st ≫= steps))
  end.

(** [steps7.length ? mean : sVal]; with no rows [sVal] is the number [0]. *)
Definition histSAvg (st : list StepsRow) (v : Field) : Q :=
  if JS.truthyNum (JS.len st)
  then JS.sum (stepsVals st) / JS.len st
  else match v with FNum q => q | FNull | FUndefined => 0 end.

(** [sAvg ? sVal/sAvg : 1]; [None] is [NaN]. *)
Definition histRel (st : list StepsRow) (i : nat) : option Q :=
  let v := sVal st i in
  let avg := histSAvg st v in
  if JS.truthyNum avg
  then match v with
       | FNum q => Some (q / avg)
       | FNull => Some (0 / avg)
       | FUndefined => None
       end
  else Some 1.

(** The steps term: every comparison with [NaN] is false, which leaves the
    initial [1.0]. *)
Definition histSt (st : list StepsRow) (i : nat) : Q :=
  match histRel st i with
  | Some r => stepsScore r
  | None => 1.0
  end.

(** The score of one aligned date. *)
Definition histScore (s : Snapshot) (d : string) : Z :=
  let m := totalSleepMinutes (sleepByDate (sleepRows s)) d in
  let sleepScoreH := JS.Math_max 0 (JS.Math_min 1 (m / 480)) in
  let i := hrIdx (hr7 s) d in
  JS.Math_round
    (100 * (0.5 * sleepScoreH + 0.3 * histH (hr7 s) i + 0.2 * histSt (steps7 s) i)).

Definition hist (s : Snapshot) : list Z :=
  map (histScore s) (sleepDates (sleepRows s)).

(** The labels and the data of the projection chart. *)
Definition projectionLabels (s : Snapshot) : list string :=
  JS.slice_last 3 (sleepDates (sleepRows s)) ++ ["D+1"; "D+2"; "D+3"].

Definition projectionData (s : Snapshot) : list Z := projection (hist s).

End History.

(** ** The readiness gauge ([ReadinessGauge.jsx]) *)

Module Gauge.

Inductive Zone := ok | warn | bad.

(** [Math.max(0, Math.min(100, Math.round(score)))]. *)
Definition val (score : Q) : Z := Z.max 0 (Z.min 100 (JS.Math_round score)).

Definition zone (v : Z) : Zone :=
  if (80 <=? v)%Z then ok else if (60 <=? v)%Z then warn else bad.

(** The two arcs of the doughnut. *)
Definition arcs (v : Z) : list Z := [v; (100 - v)%Z].

Definition caption (z : Zone) : string :=
  match z with ok => "Primed" | warn => "Moderate" | bad => "Recover" end.

(** The same computations on any number; [None] is [NaN].  [Math.round],
    [Math.min] and [Math.max] return [NaN] for [NaN]; an infinite score is
    clamped like a finite one; [NaN >= 80] and [NaN >= 60] are false. *)
Definition valOf (score : Chart.number) : option Z :=
  match score with
  | Chart.Fin q => Some (val q)
  | Chart.NaN => None
  | Chart.Infinity negative => Some (if negative then 0 else 100)%Z
  end.

Definition arcsOf (score : Chart.number) : list (option Z) :=
  match valOf score with
  | Some v => map Some (arcs v)
  | None => [None; None]
  end.

Definition zoneOf (score : Chart.number) : Zone :=
  match valOf score with
  | Some v => zone v
  | None => bad
  end.

End Gauge.

(** ** The chart requested by the coach ([AIChart.jsx]) *)

Module AIChart.

(** A field that holds an array: missing ([undefined]), [null], or present.
    The default of a parameter applies to a missing field only. *)
Inductive ArrayField (A : Type) := Missing | IsNull | Has (items : list A).
Arguments Missing {A}.
Arguments IsNull {A}.
Arguments Has {A} items.

(** A chart specification; a [type] or [title] of [None] is a missing one,
    and [stacked] is any value, read for its truthiness. *)
Record Spec := {
  type : option string;
  stacked : Chart.value;
  labels : ArrayField string;
  datasets : ArrayField Chart.Dataset;
  title : option string
}.

(** What is drawn; labels of [None] are [null] labels. *)
Inductive Rendered :=
| Hint
| Bar (labels : option (list string)) (series : list (string * list Chart.value))
      (caption : option string)
| Line (labels : option (list string)) (series : list (string * list Chart.value))
       (caption : option string).

(** [spec.type === 'stackedBar' ? 'bar' : spec.type]. *)
Definition kind (sp : Spec) : option string :=
  if bool_decide (type sp = Some "stackedBar") then Some "bar" else type sp.

(** [spec.title ? ... : null]. *)
Definition shownTitle (sp : Spec) : option string :=
  match title sp with
  | Some t => if JS.truthyStr t then Some t else None
  | None => None
  end.

(** The [labels = []] default of the chart components. *)
Definition passedLabels (sp : Spec) : option (list string) :=
  match labels sp with
  | Missing => Some []
  | IsNull => None
  | Has l => Some l
  end.

(** The [datasets = []] default, and [datasets.map]: [None] is the
    [TypeError] of calling [map] on [null]. *)
Definition passedDatasets (sp : Spec) : option (list Chart.Dataset) :=
  match datasets sp with
  | Missing => Some []
  | IsNull => None
  | Has ds => Some ds
  end.

(** The component; [None] is a [TypeError]. *)
Definition render (spec : option Spec) : option Rendered :=
  match spec with
  | None => Some Hint
  | Some sp =>
      ds ← passedDatasets sp;
      Some (if bool_decide (kind sp = Some "bar") && Chart.truthy (stacked sp)
            then Bar (passedLabels sp) (Chart.StackedBar ds) (shownTitle sp)
            else Line (passedLabels sp) (Chart.TrendLine ds) (shownTitle sp))
  end.

End AIChart.

(** ** The scoring formulas as the specification words them *)

Module Spec.

(** Arithmetic mean of a list of numbers, [0] for the empty list. *)
Definition mean (xs : list Q) : Q :=
  match xs with
  | [] => 0
  | _ :: _ => fold_right Qplus 0 xs / inject_Z (Z.of_nat (length xs))
  end.

(** Sum and count of the readings that are present in a heart-rate series. *)
Fixpoint presentSum (hr : list HRRow) : Q :=
  match hr with
  | [] => 0
  | r :: hr' =>
      match avg_bpm r with
      | Some v => v + presentSum hr'
      | None => presentSum hr'
      end
  end.

Fixpoint presentCount (hr : list HRRow) : nat :=
  match hr with
  | [] => O
  | r :: hr' =>
      match avg_bpm r with
      | Some _ => S (presentCount hr')
      | None => presentCount hr'
      end
  end.

(** Mean of the available readings; missing readings are left out of both
    the sum and the count. *)
Definition weeklyAvg (hr : list HRRow) : Q :=
  match presentCount hr with
  | O => 0
  | S _ => presentSum hr / inject_Z (Z.of_nat (presentCount hr))
  end.

(** Sum of the minutes of the segments of a date and stage. *)
Fixpoint stageSum (rows : list SleepRow) (d s : string) : Q :=
  match rows with
  | [] => 0
  | r :: rows' =>
      if bool_decide (date r = d) && bool_decide (stage r = s)
      then stageSum rows' d s + default 0 (mins r)
      else stageSum rows' d s
  end.

End Spec.

(** * Properties *)

(** ** Facts about the JavaScript primitives *)

Section JSFacts.

Lemma ltb_true (x y : Q) : JS.ltb x y = true <-> x < y.
Proof.
  unfold JS.ltb. rewrite negb_true_iff, <- not_true_iff_false, Qle_bool_iff.
  split; [apply Qnot_le_lt | apply Qlt_not_le].
Qed.

Lemma ltb_false (x y : Q) : JS.ltb x y = false <-> y <= x.
Proof. unfold JS.ltb. rewrite negb_false_iff. apply Qle_bool_iff. Qed.

Lemma gtb_true (x y : Q) : JS.gtb x y = true <-> y < x.
Proof. apply ltb_true. Qed.

Lemma gtb_false (x y : Q) : JS.gtb x y = false <-> x <= y.
Proof. apply ltb_false. Qed.

Lemma truthyNum_true (q : Q) : JS.truthyNum q = true <-> ~ q == 0.
Proof.
  unfold JS.truthyNum.
  rewrite negb_true_iff, <- not_true_iff_false, Qeq_bool_iff. tauto.
Qed.

Lemma truthyNum_false (q : Q) : JS.truthyNum q = false <-> q == 0.
Proof. unfold JS.truthyNum. rewrite negb_false_iff. apply Qeq_bool_iff. Qed.

Lemma len_nil {A} : JS.len (@nil A) = 0.
Proof. reflexivity. Qed.

Lemma len_pos {A} (xs : list A) : xs <> [] -> 0 < JS.len xs.
Proof.
  intros Hne. unfold JS.len.
  destruct xs as [|x xs]; [congruence|].
  change 0 with (inject_Z 0). rewrite <- Zlt_Qlt. simpl length. lia.
Qed.

Lemma truthyNum_len {A} (xs : list A) :
  JS.truthyNum (JS.len xs) = match xs with [] => false | _ :: _ => true end.
Proof.
  destruct xs as [|x xs]; [reflexivity|].
  apply truthyNum_true. intros H.
  pose proof (len_pos (x :: xs) ltac:(discriminate)) as Hpos.
  rewrite H in Hpos. revert Hpos. apply Qlt_irrefl.
Qed.

Lemma orZero_default (o : option Q) : JS.orZero o == default 0 o.
Proof.
  destruct o as [q|]; simpl; [|reflexivity].
  destruct (Qeq_bool q 0) eqn:E; [|reflexivity].
  apply Qeq_bool_iff in E. symmetry. exact E.
Qed.

Local Ltac clamp_cases :=
  repeat apply conj;
  repeat match goal with
         | |- (_ /\ _) -> _ => intros [? ?]
         | |- _ -> _ => intros ?
         end;
  lra.

(** [Math.max(0, Math.min(1, x))] is the clamp of [x] to the unit interval. *)
Lemma clamp_unit (x : Q) :
  let c := JS.Math_max 0 (JS.Math_min 1 x) in
  0 <= c <= 1 /\ (x <= 0 -> c == 0) /\ (1 <= x -> c == 1) /\ (0 <= x <= 1 -> c == x).
Proof.
  unfold JS.Math_max, JS.Math_min. cbv zeta.
  destruct (Qle_bool 1 x) eqn:E1.
  - apply Qle_bool_iff in E1. simpl. clamp_cases.
  - apply not_true_iff_false in E1. rewrite Qle_bool_iff in E1.
    destruct (Qle_bool 0 x) eqn:E0.
    + apply Qle_bool_iff in E0. clamp_cases.
    + apply not_true_iff_false in E0. rewrite Qle_bool_iff in E0.
      clamp_cases.
Qed.

Lemma Math_round_bounds (a b : Z) (x : Q) :
  inject_Z a <= x -> x <= inject_Z b -> (a <= JS.Math_round x <= b)%Z.
Proof.
  intros Ha Hb. unfold JS.Math_round. split.
  - rewrite <- (Qfloor_Z a). apply Qfloor_resp_le.
    apply Qle_trans with x; [exact Ha|]. lra.
  - apply Z.lt_succ_r. rewrite Zlt_Qlt.
    apply Qle_lt_trans with (x + 0.5); [apply Qfloor_le|].
    unfold Z.succ. rewrite inject_Z_plus. change (inject_Z 1) with 1.
    apply Qle_lt_trans with (inject_Z b + 0.5).
    + apply Qplus_le_compat; [exact Hb | apply Qle_refl].
    + apply Qplus_lt_r. reflexivity.
Qed.

Lemma Math_round_comp (x y : Q) : x == y -> JS.Math_round x = JS.Math_round y.
Proof. intros H. unfold JS.Math_round. apply Qfloor_comp. rewrite H. reflexivity. Qed.

(** The clamp does not depend on the representation of its argument. *)
Lemma clamp_unit_comp (x y : Q) :
  x == y ->
  JS.Math_max 0 (JS.Math_min 1 x) == JS.Math_max 0 (JS.Math_min 1 y).
Proof.
  intros H.
  destruct (clamp_unit x) as (_ & Hx0 & Hx1 & Hx).
  destruct (clamp_unit y) as (_ & Hy0 & Hy1 & Hy).
  cbv zeta in *.
  destruct (Qlt_le_dec x 0) as [Hneg|Hpos].
  - rewrite Hx0, Hy0 by lra. reflexivity.
  - destruct (Qlt_le_dec 1 x) as [Hbig|Hsmall].
    + rewrite Hx1, Hy1 by lra. reflexivity.
    + rewrite Hx, Hy by (split; lra). exact H.
Qed.

Lemma slice_last_length {A} (k : nat) (xs : list A) :
  length (JS.slice_last k xs) = Nat.min k (length xs).
Proof. unfold JS.slice_last. rewrite length_drop. lia. Qed.

End JSFacts.

(** ** The readiness scorer *)

Section Readiness.

Lemma hrAvg_nonempty_last (hr : list HRRow) :
  hrAvg hr <> [] -> is_Some (last hr).
Proof.
  intros Hne. destruct hr as [|r hr] using rev_ind.
  - contradiction.
  - rewrite last_snoc. eauto.
Qed.

(** The guarded field access never fails. *)
Lemma yesterday_total (hr : list HRRow) :
  yesterday hr =
    Some (match last hr with
          | Some r => default (weeklyAvg hr) (avg_bpm r)
          | None => weeklyAvg hr
          end).
Proof.
  unfold yesterday. rewrite truthyNum_len.
  destruct (hrAvg hr) as [|q qs] eqn:E.
  - destruct (last hr) as [r|] eqn:L; [|reflexivity].
    destruct (avg_bpm r) as [v|] eqn:Hv; [|reflexivity].
    exfalso. apply last_Some in L as [hr' ->].
    unfold hrAvg in E. rewrite omap_app in E. simpl in E. rewrite Hv in E.
    destruct (omap avg_bpm hr'); discriminate.
  - destruct (hrAvg_nonempty_last hr) as [r Hr]; [rewrite E; discriminate|].
    rewrite Hr. reflexivity.
Qed.

Lemma sleepScore_range (m : Q) : 0 <= sleepScore m <= 1.
Proof. unfold sleepScore. apply clamp_unit. Qed.

Lemma hrScore_range (y w : Q) : 0 <= hrScore y w <= 1.
Proof. unfold hrScore. apply clamp_unit. Qed.

Lemma stepsScore_levels (r : Q) :
  stepsScore r = 0.8 \/ stepsScore r = 0.86 \/
  stepsScore r = 0.94 \/ stepsScore r = 1.0.
Proof.
  unfold stepsScore.
  destruct (JS.gtb r 1.35); [tauto|].
  destruct (JS.ltb r 0.6); [tauto|].
  destruct (JS.ltb r 0.85 || JS.gtb r 1.15); tauto.
Qed.

Lemma stepsScore_range (r : Q) : 0 <= stepsScore r <= 1.
Proof.
  destruct (stepsScore_levels r) as [-> | [-> | [-> | ->]]]; lra.
Qed.

Lemma components_total (s : Snapshot) : is_Some (components s).
Proof. unfold components. rewrite yesterday_total. simpl. eauto. Qed.

Lemma composite_range (c : Components) :
  0 <= c_sleep c <= 1 -> 0 <= c_hr c <= 1 -> 0 <= c_steps c <= 1 ->
  (0 <= composite c <= 100)%Z.
Proof.
  intros Hs Hh Ht. unfold composite. apply Math_round_bounds.
  - change (inject_Z 0) with 0. nra.
  - change (inject_Z 100) with 100. nra.
Qed.

End Readiness.

Section Means.

Lemma fold_left_Qplus_acc (xs : list Q) (a : Q) :
  fold_left Qplus xs a == a + fold_left Qplus xs 0.
Proof.
  revert a. induction xs as [|x xs IH]; intros a; simpl.
  - lra.
  - rewrite (IH (a + x)), (IH (0 + x)). lra.
Qed.

Lemma sum_cons (x : Q) (xs : list Q) : JS.sum (x :: xs) == x + JS.sum xs.
Proof. unfold JS.sum. simpl. rewrite fold_left_Qplus_acc. lra. Qed.

Lemma sum_fold_right (xs : list Q) : JS.sum xs == fold_right Qplus 0 xs.
Proof.
  induction xs as [|x xs IH]; [reflexivity|].
  rewrite sum_cons, IH. reflexivity.
Qed.

Lemma fold_right_Qplus_Forall2 (xs ys : list Q) :
  Forall2 Qeq xs ys -> fold_right Qplus 0 xs == fold_right Qplus 0 ys.
Proof.
  induction 1 as [|x y xs ys Hxy _ IH]; simpl; [reflexivity|].
  rewrite Hxy, IH. reflexivity.
Qed.

(** The mean computed by [reduce] and [length] is the arithmetic mean. *)
Lemma js_mean (xs : list Q) :
  (if JS.truthyNum (JS.len xs) then JS.sum xs / JS.len xs else 0) == Spec.mean xs.
Proof.
  rewrite truthyNum_len. destruct xs as [|x xs]; [reflexivity|].
  unfold Spec.mean, JS.len. rewrite sum_fold_right. reflexivity.
Qed.

Lemma mean_Forall2 (xs ys : list Q) :
  Forall2 Qeq xs ys -> Spec.mean xs == Spec.mean ys.
Proof.
  intros H. pose proof (Forall2_length _ _ _ H) as Hlen.
  destruct H as [|x y xs ys Hxy H]; [reflexivity|].
  unfold Spec.mean. rewrite Hlen.
  rewrite (fold_right_Qplus_Forall2 (x :: xs) (y :: ys)); [reflexivity|].
  constructor; assumption.
Qed.

Lemma presentSum_hrAvg (hr : list HRRow) :
  Spec.presentSum hr == fold_right Qplus 0 (hrAvg hr).
Proof.
  unfold hrAvg. induction hr as [|r hr IH]; simpl; [reflexivity|].
  destruct (avg_bpm r); simpl; rewrite IH; reflexivity.
Qed.

Lemma presentCount_hrAvg (hr : list HRRow) :
  Spec.presentCount hr = length (hrAvg hr).
Proof.
  unfold hrAvg. induction hr as [|r hr IH]; simpl; [reflexivity|].
  destruct (avg_bpm r); simpl; rewrite IH; reflexivity.
Qed.

Lemma weeklyAvg_spec (hr : list HRRow) : weeklyAvg hr == Spec.weeklyAvg hr.
Proof.
  unfold weeklyAvg. rewrite js_mean.
  pose proof (presentSum_hrAvg hr) as Hsum.
  unfold Spec.weeklyAvg, Spec.mean. rewrite presentCount_hrAvg.
  destruct (hrAvg hr) as [|v vs]; [reflexivity|].
  cbn [length]. rewrite Hsum. reflexivity.
Qed.

End Means.

(** ** Readiness: range, components and defaults *)

Section ReadinessClaims.

Lemma last_map {A B} (f : A -> B) (l : list A) : last (map f l) = f <$> last l.
Proof.
  induction l as [|x l IH]; [reflexivity|].
  destruct l as [|y l]; [reflexivity|]. exact IH.
Qed.

Lemma goal_truthy : JS.truthyNum goal = true.
Proof. reflexivity. Qed.

Lemma div_goal (m : Q) : m / goal == m * (1 # 480).
Proof. unfold Qdiv. reflexivity. Qed.

(** The sleep score by cases on the minutes slept. *)
Lemma sleepScore_cases (m : Q) :
  (m <= 0 -> sleepScore m == 0) /\
  (0 <= m <= 480 -> sleepScore m == m * (1 # 480)) /\
  (480 <= m -> sleepScore m == 1).
Proof.
  unfold sleepScore. rewrite goal_truthy.
  destruct (clamp_unit (m / goal)) as (_ & H0 & H1 & Hx).
  cbv zeta in *. pose proof (div_goal m) as Hd.
  repeat apply conj.
  - intros Hm. apply H0. rewrite Hd. lra.
  - intros [Hm0 Hm1]. rewrite Hx; [exact Hd|]. rewrite Hd. split; lra.
  - intros Hm. apply H1. rewrite Hd. lra.
Qed.

(** C1: for every snapshot the readiness computation returns a value; that
    value is [round(100 * (0.5*sleepScore + 0.3*hrScore + 0.2*stepsScore))],
    each of the three component scores lies in [[0, 1]], and the value is an
    integer between 0 and 100. *)
Theorem readiness_in_range (s : Snapshot) :
  exists (c : Components) (v : Z),
    components s = Some c /\
    readiness s = Some v /\
    v = JS.Math_round (100 * (0.5 * c_sleep c + 0.3 * c_hr c + 0.2 * c_steps c)) /\
    0 <= c_sleep c <= 1 /\ 0 <= c_hr c <= 1 /\ 0 <= c_steps c <= 1 /\
    (0 <= v <= 100)%Z.
Proof.
  unfold readiness, components. rewrite yesterday_total. simpl.
  eexists. eexists. split; [reflexivity|]. split; [reflexivity|].
  split; [reflexivity|]. simpl.
  pose proof (sleepScore_range (sleepMin (sleepRows s))) as Hs.
  pose proof (stepsScore_range (rel (steps7 s))) as Ht.
  match goal with |- context [hrScore ?y ?w] =>
    pose proof (hrScore_range y w) as Hh end.
  repeat split; try tauto.
  all: apply composite_range; simpl; tauto.
Qed.

(** C8: when the sleep, heart-rate and steps series are all empty the
    readiness computation returns a value (no error), the component scores
    are the defaults 0 (sleep), 1 (heart rate) and 1 (steps), and the value
    is [round(100 * (0.5*0 + 0.3*1 + 0.2*1)) = 50]. *)
Theorem readiness_empty_default (s : Snapshot) :
  sleepRows s = [] -> hr7 s = [] -> steps7 s = [] ->
  exists c : Components,
    components s = Some c /\
    c_sleep c == 0 /\ c_hr c == 1 /\ c_steps c == 1 /\
    readiness s = Some 50%Z /\
    JS.Math_round (100 * (0.5 * 0 + 0.3 * 1 + 0.2 * 1)) = 50%Z.
Proof.
  intros Hsl Hhr Hst. unfold readiness, components.
  rewrite Hsl, Hhr, Hst. vm_compute. eexists. repeat split; reflexivity.
Qed.

Lemma readiness_empty_default_witness :
  exists c : Components,
    components {| sleepRows := []; hr7 := []; hrIntra := [];
                  steps7 := []; cal7 := [ {| cal_date := "2024-05-01"; kcal := Some 2100 |} ] |}
      = Some c /\
    c_sleep c == 0 /\ c_hr c == 1 /\ c_steps c == 1 /\
    readiness {| sleepRows := []; hr7 := []; hrIntra := [];
                 steps7 := []; cal7 := [ {| cal_date := "2024-05-01"; kcal := Some 2100 |} ] |}
      = Some 50%Z /\
    JS.Math_round (100 * (0.5 * 0 + 0.3 * 1 + 0.2 * 1)) = 50%Z.
Proof. apply readiness_empty_default; reflexivity. Defined.

(** C9: the sleep score is [clamp(minutes / 480, 0, 1)]: it is strictly
    increasing in the minutes slept on [[0, 480]] and equal to 1 from 480
    minutes on. *)
Theorem sleepScore_increasing_then_flat :
  (forall m : Q, 0 <= m <= 480 -> sleepScore m == m / 480) /\
  (forall a b : Q, 0 <= a -> a < b -> b <= 480 -> sleepScore a < sleepScore b) /\
  (forall m : Q, 480 <= m -> sleepScore m == 1).
Proof.
  repeat apply conj.
  - intros m Hm. destruct (sleepScore_cases m) as (_ & H & _).
    rewrite (H Hm). unfold Qdiv. reflexivity.
  - intros a b Ha Hab Hb.
    destruct (sleepScore_cases a) as (_ & Ha' & _).
    destruct (sleepScore_cases b) as (_ & Hb' & _).
    rewrite Ha', Hb' by (split; lra). lra.
  - intros m Hm. destruct (sleepScore_cases m) as (_ & _ & H). exact (H Hm).
Qed.

Lemma sleepScore_increasing_then_flat_witness :
  sleepScore 240 == 240 / 480 /\ sleepScore 240 < sleepScore 437 /\ sleepScore 600 == 1.
Proof.
  pose proof sleepScore_increasing_then_flat as (H1 & H2 & H3).
  split; [apply H1; split; lra|].
  split; [apply H2; lra | apply H3; lra].
Defined.

End ReadinessClaims.

(** ** The steps and heart-rate components *)

Section ComponentClaims.

Lemma sAvg_mean (st : list StepsRow) :
  sAvg st == Spec.mean (map (fun r => default 0 (steps r)) st).
Proof.
  unfold sAvg. rewrite js_mean. apply mean_Forall2.
  unfold stepsVals. induction st as [|r st IH]; simpl; constructor.
  - apply orZero_default.
  - exact IH.
Qed.

Lemma rel_cases (st : list StepsRow) :
  (sAvg st == 0 -> rel st = 1) /\
  (~ sAvg st == 0 ->
     exists r, last st = Some r /\ rel st = JS.orZero (steps r) / sAvg st).
Proof.
  unfold rel. split.
  - intros H. apply truthyNum_false in H. rewrite H. reflexivity.
  - intros H. apply truthyNum_true in H. rewrite H.
    unfold stepsVals. rewrite last_map.
    destruct (last st) as [r|] eqn:L; simpl; [eauto|].
    apply last_None in L. subst st. discriminate H.
Qed.

Lemma stepsScore_cases (r : Q) :
  (1.35 < r -> stepsScore r = 0.8) /\
  (r < 0.6 -> stepsScore r = 0.86) /\
  (0.6 <= r < 0.85 \/ 1.15 < r <= 1.35 -> stepsScore r = 0.94) /\
  (0.85 <= r <= 1.15 -> stepsScore r = 1.0).
Proof.
  unfold stepsScore.
  destruct (JS.gtb r 1.35) eqn:G1;
    [apply gtb_true in G1 | apply gtb_false in G1];
  (destruct (JS.ltb r 0.6) eqn:L1;
    [apply ltb_true in L1 | apply ltb_false in L1]);
  (destruct (JS.ltb r 0.85) eqn:L2;
    [apply ltb_true in L2 | apply ltb_false in L2]);
  (destruct (JS.gtb r 1.15) eqn:G2;
    [apply gtb_true in G2 | apply gtb_false in G2]);
  simpl; repeat apply conj;
  repeat match goal with
         | |- (_ \/ _) -> _ => intros [[? ?] | [? ?]]
         | |- (_ /\ _) -> _ => intros [? ?]
         | |- (_ < _) -> _ => intros ?
         end;
  first [reflexivity | exfalso; lra].
Qed.

(** C2: the steps component.  [stepsAvg] is the mean of the window's step
    counts (a missing count is 0; the mean of no counts is 0); [rel] is 1
    when [stepsAvg] is 0 and otherwise the last day's steps divided by
    [stepsAvg]; the score is 0.80 above 1.35, else 0.86 below 0.60, else 0.94
    below 0.85 or above 1.15, else 1.00; at 0.60, 0.85, 1.15 and 1.35 it is
    0.94, 1.00, 1.00 and 0.94. *)
Theorem steps_component (s : Snapshot) :
  sAvg (steps7 s) == Spec.mean (map (fun r => default 0 (steps r)) (steps7 s)) /\
  (steps7 s = [] -> sAvg (steps7 s) = 0) /\
  (sAvg (steps7 s) == 0 -> rel (steps7 s) = 1) /\
  (~ sAvg (steps7 s) == 0 ->
     exists r, last (steps7 s) = Some r /\
               rel (steps7 s) == default 0 (steps r) / sAvg (steps7 s)) /\
  (exists c, components s = Some c /\ c_steps c = stepsScore (rel (steps7 s))) /\
  (forall r : Q,
     (1.35 < r -> stepsScore r = 0.8) /\
     (r < 0.6 -> stepsScore r = 0.86) /\
     (0.6 <= r < 0.85 \/ 1.15 < r <= 1.35 -> stepsScore r = 0.94) /\
     (0.85 <= r <= 1.15 -> stepsScore r = 1.0)) /\
  stepsScore 0.6 = 0.94 /\ stepsScore 0.85 = 1.0 /\
  stepsScore 1.15 = 1.0 /\ stepsScore 1.35 = 0.94.
Proof.
  split; [apply sAvg_mean|].
  split; [intros ->; reflexivity|].
  split; [apply rel_cases|].
  split.
  { intros H. destruct (rel_cases (steps7 s)) as [_ Hr].
    destruct (Hr H) as (r & Hl & Hrel). exists r. split; [exact Hl|].
    rewrite Hrel, orZero_default. reflexivity. }
  split.
  { unfold components. rewrite yesterday_total. simpl. eauto. }
  split; [apply stepsScore_cases|].
  repeat split; reflexivity.
Qed.

Lemma steps_component_witness :
  exists r, last sampleSteps = Some r /\
            rel sampleSteps == default 0 (steps r) / sAvg sampleSteps.
Proof.
  apply (steps_component (sampleSnapshot [] [])).
  vm_compute. discriminate.
Defined.

(** C3: the heart-rate component.  The weekly average is the mean of the
    readings that are present (missing readings are left out of the sum and
    of the count) and is 0 when there is none; [yesterday] is the reading of
    the most recent record, or the weekly average when that reading is
    missing; the score is [1 - (yesterday - weeklyAvg)/20] clamped to
    [[0, 1]]; with an empty series the score is 1. *)
Theorem heart_rate_component (s : Snapshot) :
  weeklyAvg (hr7 s) == Spec.weeklyAvg (hr7 s) /\
  (Spec.presentCount (hr7 s) = O -> weeklyAvg (hr7 s) = 0) /\
  (exists (y : Q) (c : Components),
     yesterday (hr7 s) = Some y /\
     y = match last (hr7 s) with
         | Some r => default (weeklyAvg (hr7 s)) (avg_bpm r)
         | None => weeklyAvg (hr7 s)
         end /\
     components s = Some c /\
     c_hr c = hrScore y (weeklyAvg (hr7 s)) /\
     let x := 1 - (y - weeklyAvg (hr7 s)) / 20 in
     0 <= c_hr c <= 1 /\
     (x <= 0 -> c_hr c == 0) /\ (1 <= x -> c_hr c == 1) /\
     (0 <= x <= 1 -> c_hr c == x)) /\
  (hr7 s = [] -> exists c, components s = Some c /\ c_hr c == 1).
Proof.
  split; [apply weeklyAvg_spec|].
  split.
  { rewrite presentCount_hrAvg. unfold weeklyAvg. rewrite truthyNum_len.
    destruct (hrAvg (hr7 s)); [reflexivity | discriminate]. }
  split.
  { unfold components. rewrite yesterday_total. simpl.
    eexists. eexists. split; [reflexivity|]. split; [reflexivity|].
    split; [reflexivity|]. split; [reflexivity|]. simpl.
    unfold hrScore. apply clamp_unit. }
  intros H. unfold components. rewrite yesterday_total, H. simpl.
  eexists. split; [reflexivity|]. simpl. reflexivity.
Qed.

Lemma heart_rate_component_witness :
  exists c,
    components {| sleepRows := []; hr7 := []; hrIntra := []; steps7 := [];
                  cal7 := [] |} = Some c /\ c_hr c == 1.
Proof. apply (heart_rate_component emptySnapshot). reflexivity. Defined.

(** C10: the readiness value and its three component scores do not depend
    on the calories series (nor on the intraday samples): two snapshots
    with the same sleep, heart-rate and steps series have the same
    components and the same readiness. *)
Theorem readiness_ignores_calories (s1 s2 : Snapshot) :
  sleepRows s1 = sleepRows s2 -> hr7 s1 = hr7 s2 -> steps7 s1 = steps7 s2 ->
  components s1 = components s2 /\ readiness s1 = readiness s2.
Proof.
  intros Hsl Hhr Hst. unfold readiness, components.
  rewrite Hsl, Hhr, Hst. split; reflexivity.
Qed.

Lemma readiness_ignores_calories_witness :
  components (sampleSnapshot [] [])
    = components (sampleSnapshot [ {| cal_date := "2024-05-03"; kcal := Some 2450 |} ]
                                 [ {| ts := "2024-05-03T07:05:00"; sample_bpm := Some 58 |} ]) /\
  readiness (sampleSnapshot [] [])
    = readiness (sampleSnapshot [ {| cal_date := "2024-05-03"; kcal := Some 2450 |} ]
                                [ {| ts := "2024-05-03T07:05:00"; sample_bpm := Some 58 |} ]).
Proof. apply readiness_ignores_calories; reflexivity. Defined.

(** The scenarios of the specification, evaluated. *)
Example sample_dates : sleepDates sampleSleep = ["2024-05-01"; "2024-05-02"; "2024-05-03"].
Proof. vm_compute. reflexivity. Qed.

Example sample_sleepMin : sleepMin sampleSleep == 437.
Proof. vm_compute. reflexivity. Qed.

Example sample_stepsScore : stepsScore (rel sampleSteps) = 0.8.
Proof. vm_compute. reflexivity. Qed.

Example sample_readiness : readiness (sampleSnapshot [] []) = Some 90%Z.
Proof. vm_compute. reflexivity. Qed.

Example scenario_composite :
  composite {| c_sleep := 0.9; c_hr := 1; c_steps := 1.0 |} = 95%Z.
Proof. vm_compute. reflexivity. Qed.

End ComponentClaims.

(** ** Date alignment *)

Section DateAligner.

Implicit Types (xs acc : list string) (d e : string).

Lemma uniq_acc_elem_of xs acc d :
  d ∈ fold_left (fun a x => if decide (x ∈ a) then a else a ++ [x]) xs acc
  <-> d ∈ acc \/ d ∈ xs.
Proof.
  revert acc. induction xs as [|x xs IH]; intros acc; simpl.
  - rewrite elem_of_nil. tauto.
  - rewrite IH, elem_of_cons. destruct (decide (x ∈ acc)) as [Hin|Hnin].
    + split; [tauto|]. intros [?|[->|?]]; tauto.
    + rewrite elem_of_app, list_elem_of_singleton. tauto.
Qed.

Lemma uniq_acc_NoDup xs acc :
  NoDup acc ->
  NoDup (fold_left (fun a x => if decide (x ∈ a) then a else a ++ [x]) xs acc).
Proof.
  revert acc. induction xs as [|x xs IH]; intros acc Hacc; simpl; [exact Hacc|].
  apply IH. destruct (decide (x ∈ acc)) as [Hin|Hnin]; [exact Hacc|].
  apply NoDup_app. split; [exact Hacc|]. split.
  - intros y Hy Hy'. apply list_elem_of_singleton in Hy'. subst y. tauto.
  - apply NoDup_singleton.
Qed.

Lemma uniq_elem_of xs d : d ∈ JS.uniq xs <-> d ∈ xs.
Proof. unfold JS.uniq. rewrite uniq_acc_elem_of, elem_of_nil. tauto. Qed.

Lemma uniq_NoDup xs : NoDup (JS.uniq xs).
Proof. apply uniq_acc_NoDup, NoDup_nil_2. Qed.

Lemma uniq_length xs : length (JS.uniq xs) = length (remove_dups xs).
Proof.
  apply Permutation_length, NoDup_Permutation.
  - apply uniq_NoDup.
  - apply NoDup_remove_dups.
  - intros d. rewrite uniq_elem_of, elem_of_remove_dups. tauto.
Qed.

Lemma sort_elem_of xs d : d ∈ JS.sort xs <-> d ∈ xs.
Proof. unfold JS.sort. rewrite merge_sort_Permutation. tauto. Qed.

Lemma sort_NoDup xs : NoDup xs -> NoDup (JS.sort xs).
Proof. unfold JS.sort. rewrite merge_sort_Permutation. tauto. Qed.

Lemma sort_length xs : length (JS.sort xs) = length xs.
Proof. unfold JS.sort. rewrite merge_sort_Permutation. reflexivity. Qed.

Lemma sort_sorted xs : StronglySorted String.le (JS.sort xs).
Proof. apply StronglySorted_merge_sort; apply _. Qed.

(** The result of sorting does not depend on the sorting algorithm: any
    sorted rearrangement of the list is the one computed here. *)
Lemma sort_unique xs ys :
  ys ≡ₚ xs -> StronglySorted String.le ys -> ys = JS.sort xs.
Proof.
  intros Hperm Hsorted. apply (StronglySorted_unique String.le).
  - exact Hsorted.
  - apply sort_sorted.
  - rewrite Hperm. unfold JS.sort. rewrite merge_sort_Permutation. reflexivity.
Qed.

(** A duplicate-free list sorted by [String.le] is strictly ascending. *)
Lemma sorted_strict xs :
  NoDup xs -> StronglySorted String.le xs -> StronglySorted (strict String.le) xs.
Proof.
  induction xs as [|x xs IH]; intros Hnd Hs; [constructor|].
  apply NoDup_cons in Hnd as [Hx Hnd].
  apply StronglySorted_cons in Hs as [Hall Hs].
  constructor; [apply IH; assumption|].
  rewrite Forall_forall in Hall |- *. intros y Hy. split; [apply Hall, Hy|].
  intros Hyx. assert (x = y) as -> by (apply (anti_symm String.le); auto).
  contradiction.
Qed.

Lemma slice_last_split {A} (k : nat) (l : list A) :
  l = take (length l - k) l ++ JS.slice_last k l.
Proof. unfold JS.slice_last. symmetry. apply take_drop. Qed.

Lemma sleepDates_split (rows : list SleepRow) :
  exists older,
    JS.sort (JS.uniq (map date rows)) = older ++ sleepDates rows /\
    length older = (length (remove_dups (map date rows)) - 7)%nat.
Proof.
  exists (take (length (JS.sort (JS.uniq (map date rows))) - 7)
               (JS.sort (JS.uniq (map date rows)))).
  split; [apply slice_last_split|].
  rewrite length_take, sort_length, uniq_length. lia.
Qed.

(** C7: the aligned dates of a list of sleep rows are duplicate-free and
    strictly ascending, there are [min 7 n] of them where [n] is the number
    of distinct dates of the input (so at most seven), each of them is a date
    of the input, every input date that is left out is smaller than every
    date that is kept, no date is left out when there are at most seven
    distinct dates, and an empty input gives no date. *)
Theorem sleepDates_aligned (rows : list SleepRow) :
  let dates := map date rows in
  let out := sleepDates rows in
  NoDup out /\
  StronglySorted (strict String.le) out /\
  length out = Nat.min 7 (length (remove_dups dates)) /\
  (length out <= 7)%nat /\
  (forall d, d ∈ out -> d ∈ dates) /\
  (forall d e, d ∈ dates -> d ∉ out -> e ∈ out -> strict String.le d e) /\
  ((length (remove_dups dates) <= 7)%nat -> forall d, d ∈ dates -> d ∈ out) /\
  sleepDates [] = [].
Proof.
  intros dates out.
  destruct (sleepDates_split rows) as (older & Hsplit & Holder).
  fold dates out in Hsplit, Holder.
  assert (NoDup (older ++ out)) as Hnd.
  { rewrite <- Hsplit. apply sort_NoDup, uniq_NoDup. }
  assert (StronglySorted (strict String.le) (older ++ out)) as Hs.
  { apply sorted_strict; [exact Hnd|]. rewrite <- Hsplit. apply sort_sorted. }
  assert (forall d, d ∈ older ++ out <-> d ∈ dates) as Hmem.
  { intros d. rewrite <- Hsplit, sort_elem_of, uniq_elem_of. tauto. }
  assert (length out = Nat.min 7 (length (remove_dups dates))) as Hlen.
  { unfold out, sleepDates. rewrite slice_last_length, sort_length, uniq_length.
    reflexivity. }
  split; [apply NoDup_app in Hnd; tauto|].
  split; [eapply StronglySorted_app_1_r; exact Hs|].
  split; [exact Hlen|].
  split; [lia|].
  split; [intros d Hd; apply Hmem, elem_of_app; tauto|].
  split.
  { intros d e Hd Hnot He. apply Hmem, elem_of_app in Hd as [Hd|Hd]; [|contradiction].
    eapply StronglySorted_app_1_elem_of; eauto. }
  split; [|reflexivity].
  intros Hfew d Hd. apply Hmem, elem_of_app in Hd as [Hd|Hd]; [|exact Hd].
  assert (older = []) as -> by (apply length_zero_iff_nil; lia).
  apply elem_of_nil in Hd. contradiction.
Qed.

End DateAligner.

(** ** Stage aggregation *)

Section StageAggregator.

Implicit Types (m : gmap string (gmap string Q)) (rows : list SleepRow).

Lemma orZero_Some (q : Q) : JS.orZero (Some q) == q.
Proof. apply orZero_default. Qed.

(** Effect of one row on the minutes of a date and stage. *)
Lemma stageMinutes_step m (r : SleepRow) (d s : string) :
  stageMinutes (sleepByDate_step m r) d s ==
    stageMinutes m d s +
    (if bool_decide (date r = d) && bool_decide (stage r = s)
     then default 0 (mins r) else 0).
Proof.
  unfold stageMinutes, sleepByDate_step. cbv zeta.
  destruct (decide (date r = d)) as [<-|Hd].
  - rewrite lookup_insert_eq, bool_decide_eq_true_2 by reflexivity. simpl.
    destruct (decide (stage r = s)) as [<-|Hs].
    + rewrite lookup_insert_eq, bool_decide_eq_true_2 by reflexivity.
      rewrite orZero_Some, (orZero_default (mins r)).
      destruct (m !! date r) as [b|]; simpl; reflexivity.
    + rewrite lookup_insert_ne, bool_decide_eq_false_2 by assumption.
      destruct (m !! date r) as [b|]; simpl; [lra|].
      rewrite lookup_empty. simpl. lra.
  - rewrite lookup_insert_ne, bool_decide_eq_false_2 by assumption. simpl. lra.
Qed.

Lemma stageMinutes_fold rows m (d s : string) :
  stageMinutes (fold_left sleepByDate_step rows m) d s ==
    stageMinutes m d s + Spec.stageSum rows d s.
Proof.
  revert m. induction rows as [|r rows IH]; intros m; simpl.
  - lra.
  - rewrite IH, stageMinutes_step.
    destruct (bool_decide (date r = d) && bool_decide (stage r = s)); lra.
Qed.

Lemma stageMinutes_sleepByDate rows (d s : string) :
  stageMinutes (sleepByDate rows) d s == Spec.stageSum rows d s.
Proof.
  unfold sleepByDate. rewrite stageMinutes_fold.
  unfold stageMinutes. rewrite lookup_empty. simpl. lra.
Qed.

Lemma totalSleepMinutes_sum rows (d : string) :
  totalSleepMinutes (sleepByDate rows) d ==
    Spec.stageSum rows d "Light sleep" + Spec.stageSum rows d "Deep sleep"
    + Spec.stageSum rows d "REM sleep".
Proof.
  unfold totalSleepMinutes, sleepStages. simpl.
  rewrite !stageMinutes_sleepByDate. lra.
Qed.

Lemma stageSum_filter rows (d s : string) :
  s ∈ sleepStages ->
  Spec.stageSum (filter (fun r => isSleepStage r = true) rows) d s = Spec.stageSum rows d s.
Proof.
  intros Hs. induction rows as [|r rows IH]; [reflexivity|].
  rewrite filter_cons. unfold isSleepStage at 1.
  destruct (decide (bool_decide (stage r ∈ sleepStages) = true)) as [Hin|Hout]; simpl.
  - rewrite IH. reflexivity.
  - rewrite IH. destruct (decide (stage r = s)) as [E|E].
    + exfalso. apply Hout, bool_decide_eq_true_2. rewrite E. exact Hs.
    + rewrite (bool_decide_eq_false_2 _ E), andb_false_r. reflexivity.
Qed.

Lemma stageSum_no_match rows (d s : string) :
  (forall r, r ∈ rows -> ~ (date r = d /\ stage r = s)) -> Spec.stageSum rows d s = 0.
Proof.
  induction rows as [|r rows IH]; intros H; [reflexivity|]. simpl.
  rewrite IH by (intros r' Hr'; apply H; right; exact Hr').
  destruct (decide (date r = d)) as [Ed|Ed], (decide (stage r = s)) as [Es|Es];
    rewrite ?(bool_decide_eq_false_2 _ Ed), ?(bool_decide_eq_false_2 _ Es),
      ?andb_false_r; simpl; try reflexivity.
  exfalso. apply (H r); [left | split; assumption].
Qed.

(** C4: for every list of sleep segments and every date, the minutes kept
    for a date and stage are the sum of the minutes of the segments of that
    date and stage (missing minutes count as 0, and the total is 0 when no
    segment matches); the total sleep minutes of the date are the Light,
    Deep and REM totals, so they are unchanged when the segments of every
    other stage are removed; and the sleep minutes fed to the readiness
    score are that total for the last aligned date. *)
Theorem sleep_totals (rows : list SleepRow) :
  (forall d s : string,
     stageMinutes (sleepByDate rows) d s == Spec.stageSum rows d s) /\
  (forall d s : string,
     (forall r, r ∈ rows -> ~ (date r = d /\ stage r = s)) ->
     stageMinutes (sleepByDate rows) d s == 0) /\
  (forall d : string,
     totalSleepMinutes (sleepByDate rows) d ==
       Spec.stageSum rows d "Light sleep" + Spec.stageSum rows d "Deep sleep"
       + Spec.stageSum rows d "REM sleep") /\
  (forall d : string,
     totalSleepMinutes (sleepByDate rows) d ==
       totalSleepMinutes
         (sleepByDate (filter (fun r => isSleepStage r = true) rows)) d) /\
  sleepMin rows ==
    match last (sleepDates rows) with
    | Some d =>
        if JS.truthyStr d
        then Spec.stageSum rows d "Light sleep" + Spec.stageSum rows d "Deep sleep"
             + Spec.stageSum rows d "REM sleep"
        else 0
    | None => 0
    end /\
  kpiSleepMin rows =
    match last (sleepDates rows) with
    | Some d =>
        if JS.truthyStr d
        then Some (JS.Math_round
                     (Spec.stageSum rows d "Light sleep" + Spec.stageSum rows d "Deep sleep"
                      + Spec.stageSum rows d "REM sleep"))
        else None
    | None => None
    end /\
  (forall rows' : list SleepRow,
     map date rows' = map date rows ->
     filter (fun r => isSleepStage r = true) rows'
       = filter (fun r => isSleepStage r = true) rows ->
     sleepMin rows' == sleepMin rows /\
     sleepScore (sleepMin rows') == sleepScore (sleepMin rows)).
Proof.
  split; [intros d s; apply stageMinutes_sleepByDate|].
  split.
  { intros d s H. rewrite stageMinutes_sleepByDate, stageSum_no_match by exact H.
    reflexivity. }
  split; [apply totalSleepMinutes_sum|].
  split.
  { intros d. rewrite !totalSleepMinutes_sum.
    rewrite !stageSum_filter by (unfold sleepStages; set_solver).
    reflexivity. }
  split.
  { unfold sleepMin. destruct (last (sleepDates rows)) as [d|]; [|reflexivity].
    destruct (JS.truthyStr d); [apply totalSleepMinutes_sum | reflexivity]. }
  split.
  { unfold kpiSleepMin. destruct (last (sleepDates rows)) as [d|]; [|reflexivity].
    destruct (JS.truthyStr d); [|reflexivity].
    f_equal. apply Math_round_comp, totalSleepMinutes_sum. }
  intros rows' Hdates Hkeep.
  assert (sleepMin rows' == sleepMin rows) as Hmin.
  { unfold sleepMin, sleepDates. rewrite Hdates.
    destruct (last _) as [d|]; [|reflexivity].
    destruct (JS.truthyStr d); [|reflexivity].
    rewrite !totalSleepMinutes_sum.
    rewrite <- !(stageSum_filter rows') by (unfold sleepStages; set_solver).
    rewrite <- !(stageSum_filter rows) by (unfold sleepStages; set_solver).
    rewrite Hkeep. reflexivity. }
  split; [exact Hmin|].
  unfold sleepScore. rewrite goal_truthy. apply clamp_unit_comp.
  rewrite Hmin. reflexivity.
Qed.

(** The last aligned date is taken from all rows: a date that only has
    segments outside the three sleep stages still becomes the last date. *)
Example last_date_without_sleep :
  sleepMin [ {| date := "2024-05-01"; stage := "Light sleep"; mins := Some 400 |};
             {| date := "2024-05-02"; stage := "Awake"; mins := Some 30 |} ] == 0.
Proof. vm_compute. reflexivity. Qed.

End StageAggregator.

(** ** The projection *)

Section Projection.

Lemma fold_left_Zadd (l : list Z) (a : Z) :
  fold_left Z.add l a = (a + fold_right Z.add 0 l)%Z.
Proof.
  revert a. induction l as [|x l IH]; intros a; simpl; [lia|].
  rewrite IH. lia.
Qed.

(** The blend [round(0.6*prev + 0.4*mean)] in integer arithmetic. *)
Lemma blend_integer (prev mean : Z) :
  blend prev mean = ((6 * prev + 4 * mean + 5) / 10)%Z.
Proof.
  unfold blend, JS.Math_round.
  rewrite (Qfloor_comp _ ((6 * prev + 4 * mean + 5) # 10%positive)).
  - reflexivity.
  - unfold Qeq, Qplus, Qmult, inject_Z. simpl. lia.
Qed.

(** The claimed third forecast value for the history 70, 75, 80 is not the
    one computed: [round(0.6*77 + 0.4*75) = round(76.2) = 76]. *)
Lemma projection_example_counterexample :
  proj1 [70; 75; 80]%Z = 78%Z /\ proj2 [70; 75; 80]%Z = 77%Z /\
  proj3 [70; 75; 80]%Z = 76%Z /\ proj3 [70; 75; 80]%Z <> 77%Z.
Proof. vm_compute. repeat split; discriminate. Qed.

(** C5 (amended): [lastR] is the most recent historical score and [meanR]
    the rounded mean of the history, both 70 for an empty history; each
    forecast is [round(0.6*previous + 0.4*meanR)], starting from [lastR];
    the output is the last three historical points followed by the three
    forecasts; for the history 70, 75, 80 the forecasts are 78, 77, 76. *)
Theorem projection_recurrence (hist : list Z) :
  lastR hist = default 70%Z (last hist) /\
  meanR hist =
    match hist with
    | [] => 70%Z
    | _ :: _ =>
        JS.Math_round (inject_Z (fold_right Z.add 0%Z hist)
                       / inject_Z (Z.of_nat (length hist)))
    end /\
  proj1 hist = JS.Math_round (0.6 * inject_Z (lastR hist) + 0.4 * inject_Z (meanR hist)) /\
  proj2 hist = JS.Math_round (0.6 * inject_Z (proj1 hist) + 0.4 * inject_Z (meanR hist)) /\
  proj3 hist = JS.Math_round (0.6 * inject_Z (proj2 hist) + 0.4 * inject_Z (meanR hist)) /\
  proj1 hist = ((6 * lastR hist + 4 * meanR hist + 5) / 10)%Z /\
  proj2 hist = ((6 * proj1 hist + 4 * meanR hist + 5) / 10)%Z /\
  proj3 hist = ((6 * proj2 hist + 4 * meanR hist + 5) / 10)%Z /\
  projection hist =
    drop (length hist - 3) hist ++ [proj1 hist; proj2 hist; proj3 hist] /\
  length (projection hist) = (Nat.min 3 (length hist) + 3)%nat /\
  projection [70; 75; 80]%Z = [70; 75; 80; 78; 77; 76]%Z.
Proof.
  split; [reflexivity|].
  split.
  { unfold meanR. rewrite truthyNum_len. destruct hist as [|h hist]; [reflexivity|].
    rewrite fold_left_Zadd. reflexivity. }
  split; [reflexivity|]. split; [reflexivity|]. split; [reflexivity|].
  split; [apply blend_integer|]. split; [apply blend_integer|].
  split; [apply blend_integer|].
  split; [reflexivity|].
  split.
  { unfold projection. rewrite length_app, slice_last_length. reflexivity. }
  vm_compute. reflexivity.
Qed.

End Projection.

(** ** Chart series coercion *)

Section ChartShaping.

Import Chart.

Example number_of_literal : number_equiv (StringToNumber " 12.5e1 ") (Fin 125).
Proof. vm_compute. reflexivity. Qed.

Example number_of_hex : number_equiv (StringToNumber "0x1F") (Fin 31).
Proof. vm_compute. reflexivity. Qed.

Example number_of_blank : StringToNumber "  " = Fin 0.
Proof. reflexivity. Qed.

Example number_of_text : StringToNumber "12px" = NaN.
Proof. reflexivity. Qed.

Local Ltac entry_cases :=
  repeat match goal with
         | |- _ /\ _ => split
         | |- _ <-> _ => split
         | |- forall _, _ => intro
         | H : _ \/ _ |- _ => destruct H
         | H : exists _, _ |- _ => destruct H
         | H : _ /\ _ |- _ => destruct H
         end;
  try discriminate; try congruence.

Local Ltac absent_case :=
  match goal with
  | H : ~ (_ \/ _ \/ _) |- _ => exfalso; apply H; tauto
  end.

Local Ltac same_entry :=
  match goal with
  | H : Bool _ = Bool _ |- _ => injection H as <-; reflexivity
  | H : Str _ = Str _ |- _ => injection H as <-; reflexivity
  | H : Num _ = Num _ |- _ => injection H as <-; reflexivity
  end.

Lemma trendEntry_spec (v : value) : trendSpec v (trendEntry v).
Proof.
  unfold trendSpec, trendEntry, absentOrEmpty, nonNumericString.
  destruct v as [| |b|n|s]; simpl.
  - entry_cases. absent_case.
  - entry_cases. absent_case.
  - entry_cases; [same_entry | destruct b; discriminate].
  - entry_cases. left. congruence.
  - destruct s as [|a s]; simpl; entry_cases.
    + absent_case.
    + right. exists (String a s). repeat split; congruence.
Qed.

Lemma barEntry_spec (v : value) : barSpec v (barEntry v).
Proof.
  unfold barSpec, barEntry, absentOrEmpty, nonNumericString.
  destruct v as [| |b|n|s]; simpl.
  - entry_cases.
  - entry_cases.
  - destruct b; simpl; entry_cases; same_entry.
  - destruct n as [q| |neg]; simpl; [|entry_cases ..].
    unfold JS.truthyNum. destruct (Qeq_bool q 0) eqn:E; simpl; entry_cases;
      match goal with H : Num _ = Num _ |- _ => injection H as <- end;
      rewrite E; reflexivity.
  - destruct s as [|a s]; simpl; entry_cases.
    exists (String a s). repeat split; congruence.
Qed.

(** The two descriptions leave no freedom: each determines the output. *)
Lemma trendSpec_determines (v w : value) : trendSpec v w -> w = trendEntry v.
Proof.
  intros (Habs & _ & _ & _ & Hrest & _). unfold trendEntry.
  destruct v as [| |b|n|s]; simpl;
    try (apply Habs; unfold absentOrEmpty; tauto);
    try (apply Hrest; unfold absentOrEmpty; intros [H|[H|H]]; discriminate).
  destruct s as [|a s]; simpl.
  - apply Habs. unfold absentOrEmpty. tauto.
  - apply Hrest. unfold absentOrEmpty. intros [H|[H|H]]; discriminate.
Qed.

Lemma barSpec_determines (v w : value) : barSpec v w -> w = barEntry v.
Proof.
  intros (_ & _ & _ & _ & _ & _ & Htrue & Hfalse & _). unfold barEntry.
  destruct (truthy v) eqn:E; [apply Htrue | apply Hfalse]; reflexivity.
Qed.

(** The claim that no emitted value is [NaN] and that absent entries become
    [null] fails: [TrendLine] emits [NaN] for a string that is not a number,
    and [StackedBar] emits [0] for [null] and for the empty string. *)
Lemma chart_coercion_counterexample :
  TrendLine [ {| label := "Avg BPM"; data := Some [Num (Fin 61); Str "n/a"] |} ]
    = [ ("Avg BPM", [Num (Fin 61); Num NaN]) ] /\
  StackedBar [ {| label := "Deep sleep"; data := Some [Null; Str ""; Str "n/a"] |} ]
    = [ ("Deep sleep", [Num (Fin 0); Num (Fin 0); Num NaN]) ].
Proof. split; vm_compute; reflexivity. Qed.

(** C6 (amended): for every list of datasets, each output dataset keeps the
    label and maps the entries of the input data (no entries when the data
    are missing) one by one; [TrendLine] turns [null], [undefined] and the
    empty string into [null], leaves numbers unchanged, and emits [NaN]
    exactly for a [NaN] entry and for a non-empty string that is not a
    numeric literal; [StackedBar] turns [null], [undefined], the empty
    string, [0] and [NaN] into [0], never emits [null], leaves the other
    numbers unchanged, and emits [NaN] exactly for a non-empty string that is
    not a numeric literal.  Every other entry goes through [Number]: the
    output of [TrendLine] is [null] for an absent or empty entry and
    [Number(v)] otherwise, the output of [StackedBar] is [Number(v)] for a
    truthy entry and 0 otherwise, and nothing else satisfies the two
    descriptions. *)
Theorem chart_coercion (datasets : list Dataset) :
  Forall2 (fun d out => out.1 = label d /\
                        Forall2 trendSpec (default [] (data d)) out.2)
          datasets (TrendLine datasets) /\
  Forall2 (fun d out => out.1 = label d /\
                        Forall2 barSpec (default [] (data d)) out.2)
          datasets (StackedBar datasets) /\
  (forall v w : value,
     trendSpec v w <->
     w = if looseNull v || isEmptyStr v then Null else Num (Number v)) /\
  (forall v w : value, barSpec v w <-> w = Num (Number (if truthy v then v else Num (Fin 0)))).
Proof.
  split; [|split; [|split]].
  - induction datasets as [|d ds IH]; simpl; constructor; try exact IH.
    split; [reflexivity|]. simpl.
    induction (default [] (data d)) as [|v vs IHv]; simpl; constructor;
      [apply trendEntry_spec | exact IHv].
  - induction datasets as [|d ds IH]; simpl; constructor; try exact IH.
    split; [reflexivity|]. simpl.
    induction (default [] (data d)) as [|v vs IHv]; simpl; constructor;
      [apply barEntry_spec | exact IHv].
  - intros v w. split; [apply trendSpec_determines|].
    intros ->. apply trendEntry_spec.
  - intros v w. split; [apply barSpec_determines|].
    intros ->. apply barEntry_spec.
Qed.

End ChartShaping.

(** * Further properties of the dashboard *)

(** ** Bounds and monotonicity of the readiness score *)

Section ReadinessBounds.

Lemma stepsScore_min (r : Q) : 0.8 <= stepsScore r.
Proof. destruct (stepsScore_levels r) as [-> | [-> | [-> | ->]]]; lra. Qed.

Lemma Qfloor_mono_round (x y : Q) : x <= y -> (JS.Math_round x <= JS.Math_round y)%Z.
Proof. intros H. unfold JS.Math_round. apply Qfloor_resp_le. lra. Qed.

(** The clamp to the unit interval is monotone. *)
Lemma clamp_unit_mono (x y : Q) :
  x <= y -> JS.Math_max 0 (JS.Math_min 1 x) <= JS.Math_max 0 (JS.Math_min 1 y).
Proof.
  intros H.
  destruct (clamp_unit x) as (Hrx & Hx0 & Hx1 & Hx).
  destruct (clamp_unit y) as (Hry & Hy0 & Hy1 & Hy).
  cbv zeta in *.
  destruct (Qlt_le_dec x 0) as [Hneg|Hpos].
  - rewrite Hx0 by lra. tauto.
  - destruct (Qlt_le_dec 1 y) as [Hbig|Hsmall].
    + rewrite Hy1 by lra. tauto.
    + rewrite Hx, Hy by (split; lra). exact H.
Qed.

Lemma sleepScore_mono (a b : Q) : a <= b -> sleepScore a <= sleepScore b.
Proof.
  intros H. unfold sleepScore. rewrite goal_truthy. apply clamp_unit_mono.
  rewrite !div_goal. lra.
Qed.

Lemma readiness_value_bounds (s : Snapshot) :
  exists v : Z, readiness s = Some v /\ (16 <= v)%Z /\ (v <= 100)%Z.
Proof.
  unfold readiness, components. rewrite yesterday_total. simpl.
  eexists. split; [reflexivity|].
  pose proof (sleepScore_range (sleepMin (sleepRows s))) as Hs.
  pose proof (stepsScore_range (rel (steps7 s))) as Ht.
  pose proof (stepsScore_min (rel (steps7 s))) as Ht'.
  match goal with |- context [hrScore ?y ?w] =>
    pose proof (hrScore_range y w) as Hh end.
  unfold composite. simpl.
  apply Math_round_bounds.
  - change (inject_Z 16) with 16. nra.
  - change (inject_Z 100) with 100. nra.
Qed.

(** X1: the readiness value is never below 16: the steps component is at
    least 0.8 and weighs 20 percent, whatever the three series are. *)
Theorem readiness_at_least_16 (s : Snapshot) :
  exists v : Z, readiness s = Some v /\ (16 <= v)%Z /\ (v <= 100)%Z.
Proof. exact (readiness_value_bounds s). Qed.

(** X2: more sleep never lowers readiness: of two snapshots with the same
    heart-rate and steps series, the one whose last night has at least as
    many sleep minutes has at least as high a readiness value. *)
Theorem readiness_monotone_in_sleep (s1 s2 : Snapshot) :
  hr7 s1 = hr7 s2 -> steps7 s1 = steps7 s2 ->
  sleepMin (sleepRows s1) <= sleepMin (sleepRows s2) ->
  exists v1 v2 : Z,
    readiness s1 = Some v1 /\ readiness s2 = Some v2 /\ (v1 <= v2)%Z.
Proof.
  intros Hhr Hst Hsleep. unfold readiness, components.
  rewrite Hhr, Hst, yesterday_total. simpl.
  eexists. eexists. split; [reflexivity|]. split; [reflexivity|].
  unfold composite. simpl. apply Qfloor_mono_round.
  pose proof (sleepScore_mono _ _ Hsleep). lra.
Qed.

Lemma readiness_monotone_in_sleep_witness :
  exists v1 v2 : Z,
    readiness {| sleepRows := [ {| date := "2024-05-03"; stage := "Deep sleep"; mins := Some 90 |} ];
                 hr7 := sampleHR; hrIntra := []; steps7 := sampleSteps; cal7 := [] |} = Some v1 /\
    readiness (sampleSnapshot [] []) = Some v2 /\ (v1 <= v2)%Z.
Proof.
  apply readiness_monotone_in_sleep; [reflexivity | reflexivity |].
  vm_compute. discriminate.
Defined.

End ReadinessBounds.

(** ** Headline values and the scorer *)

Section Headlines.

Lemma hrScore_same (w : Q) : hrScore w w == 1.
Proof.
  unfold hrScore.
  destruct (clamp_unit (1 - (w - w) / 20)) as (_ & _ & H1 & _).
  apply H1. assert ((w - w) / 20 == 0) as -> by field. lra.
Qed.

(** X3: a placeholder in a headline goes with the default of the matching
    component: no sleep headline means a sleep score of 0, no heart-rate
    headline (no record, or no reading in the last record) means a heart-rate
    score of 1, and no steps headline means a steps score of 1. *)
Theorem placeholder_means_default (s : Snapshot) :
  exists c : Components,
    components s = Some c /\
    (kpiSleepMin (sleepRows s) = None -> c_sleep c == 0) /\
    (kpiHr (hr7 s) = None -> c_hr c == 1) /\
    (kpiSteps (steps7 s) = None -> c_steps c = 1.0).
Proof.
  unfold components. rewrite yesterday_total. simpl.
  eexists. split; [reflexivity|]. simpl. repeat apply conj.
  - unfold kpiSleepMin, sleepMin.
    destruct (last (sleepDates (sleepRows s))) as [d|]; [|reflexivity].
    destruct (JS.truthyStr d); [discriminate | reflexivity].
  - unfold kpiHr. rewrite truthyNum_len.
    destruct (hr7 s) as [|r0 hr] eqn:E; [intros _; apply hrScore_same|].
    rewrite <- E. destruct (last (hr7 s)) as [r|]; simpl.
    + destruct (avg_bpm r); simpl; [discriminate|]. intros _. apply hrScore_same.
    + intros _. apply hrScore_same.
  - unfold kpiSteps. rewrite truthyNum_len.
    destruct (steps7 s) as [|r0 st] eqn:E; [reflexivity|].
    rewrite <- E. destruct (last (steps7 s)) as [r|] eqn:L; simpl; [discriminate|].
    apply last_None in L. rewrite L in E. discriminate.
Qed.

(** X4: a headline that shows a number shows the number the scorer uses for
    the last day: the sleep headline is the rounded [sleepMin], the
    heart-rate headline is the rounded [yesterday], and the steps headline is
    the last of the step counts that [rel] divides by the average. *)
Theorem headline_is_scorer_input (s : Snapshot) :
  (forall v, kpiSleepMin (sleepRows s) = Some v ->
             v = JS.Math_round (sleepMin (sleepRows s))) /\
  (forall v, kpiHr (hr7 s) = Some v ->
             exists y, yesterday (hr7 s) = Some y /\ v = JS.Math_round y) /\
  (forall q, kpiSteps (steps7 s) = Some q -> last (stepsVals (steps7 s)) = Some q).
Proof.
  repeat apply conj.
  - intros v. unfold kpiSleepMin, sleepMin.
    destruct (last (sleepDates (sleepRows s))) as [d|]; [|discriminate].
    destruct (JS.truthyStr d); [|discriminate]. intros [= <-]. reflexivity.
  - intros v. rewrite yesterday_total. unfold kpiHr. rewrite truthyNum_len.
    destruct (hr7 s) as [|r0 hr] eqn:E; [discriminate|]. rewrite <- E.
    destruct (last (hr7 s)) as [r|]; simpl; [|discriminate].
    destruct (avg_bpm r) as [b|]; simpl; [|discriminate].
    intros [= <-]. eexists. split; reflexivity.
  - intros q. unfold kpiSteps, stepsVals. rewrite truthyNum_len, last_map.
    destruct (steps7 s) as [|r0 st] eqn:E; [discriminate|]. rewrite <- E.
    destruct (last (steps7 s)) as [r|]; simpl; [|discriminate].
    intros [= <-]. reflexivity.
Qed.

(** X5: with a single heart-rate record the heart-rate score is 1, with or
    without a reading: the record is its own weekly average. *)
Theorem lone_reading_scores_one (s : Snapshot) (r : HRRow) :
  hr7 s = [r] -> exists c, components s = Some c /\ c_hr c == 1.
Proof.
  intros H. unfold components. rewrite yesterday_total, H. simpl.
  eexists. split; [reflexivity|]. simpl.
  destruct (avg_bpm r) as [b|] eqn:Hb; simpl; [|apply hrScore_same].
  assert (weeklyAvg [r] == b) as Hw.
  { unfold weeklyAvg, hrAvg. simpl. rewrite Hb. simpl.
    unfold JS.sum, JS.len. simpl. field. }
  unfold hrScore.
  destruct (clamp_unit (1 - (b - weeklyAvg [r]) / 20)) as (_ & _ & H1 & _).
  apply H1. rewrite Hw. assert ((b - b) / 20 == 0) as -> by field. lra.
Qed.

Lemma lone_reading_scores_one_witness :
  exists c,
    components {| sleepRows := []; hrIntra := []; steps7 := []; cal7 := [];
                  hr7 := [ {| hr_date := "2024-05-03"; avg_bpm := Some 71;
                              min_bpm := None; max_bpm := None |} ] |} = Some c /\
    c_hr c == 1.
Proof. eapply lone_reading_scores_one. reflexivity. Defined.

End Headlines.

(** ** The gauge *)

Section GaugeFacts.

Lemma Math_round_integer (v : Z) : JS.Math_round (inject_Z v) = v.
Proof.
  pose proof (Math_round_bounds v v (inject_Z v) (Qle_refl _) (Qle_refl _)). lia.
Qed.

(** X6: the gauge shows the readiness value itself: for every snapshot the
    value drawn is the value computed (rounding and clamping change nothing),
    and the two arcs of the ring are that value and its complement to 100.
    For every score that is a number, infinite ones included, the value
    drawn and both arcs are between 0 and 100; a score of [NaN] is not
    clamped: the value and both arcs are [NaN] and the zone is the lowest. *)
Theorem gauge_shows_readiness (s : Snapshot) :
  (exists v : Z,
     readiness s = Some v /\
     Gauge.val (inject_Z v) = v /\
     Gauge.arcs (Gauge.val (inject_Z v)) = [v; (100 - v)%Z] /\
     Gauge.valOf (Chart.Fin (inject_Z v)) = Some v /\
     Gauge.arcsOf (Chart.Fin (inject_Z v)) = [Some v; Some (100 - v)%Z]) /\
  (forall score : Q,
     Forall (fun a => (0 <= a)%Z /\ (a <= 100)%Z) (Gauge.arcs (Gauge.val score))) /\
  (forall score : Chart.number, Gauge.valOf score = None <-> score = Chart.NaN) /\
  (forall (score : Chart.number) (v : Z),
     Gauge.valOf score = Some v ->
     (0 <= v)%Z /\ (v <= 100)%Z /\
     Gauge.arcsOf score = [Some v; Some (100 - v)%Z] /\
     Gauge.zoneOf score = Gauge.zone v) /\
  Gauge.arcsOf Chart.NaN = [None; None] /\
  Gauge.zoneOf Chart.NaN = Gauge.bad.
Proof.
  split; [|split; [|split; [|split; [|split; reflexivity]]]].
  - destruct (readiness_value_bounds s) as (v & Hr & Hlo & Hhi).
    exists v. split; [exact Hr|].
    assert (Gauge.val (inject_Z v) = v) as Hval.
    { unfold Gauge.val. rewrite Math_round_integer. lia. }
    unfold Gauge.arcsOf, Gauge.valOf. rewrite Hval. repeat split; reflexivity.
  - intros score. unfold Gauge.arcs, Gauge.val.
    repeat constructor; lia.
  - intros score. destruct score as [q| |neg]; simpl; split; try discriminate;
      reflexivity.
  - intros score v Hv. unfold Gauge.arcsOf, Gauge.zoneOf. rewrite Hv.
    assert ((0 <= v)%Z /\ (v <= 100)%Z) as [Hlo Hhi].
    { destruct score as [q| |neg]; simpl in Hv; [| discriminate |];
        injection Hv as <-; [unfold Gauge.val; lia | destruct neg; lia]. }
    repeat split; assumption.
Qed.

End GaugeFacts.

(** ** The forecast recurrence *)

Section Forecast.

Lemma blend_between (p m : Z) :
  (Z.min p m <= blend p m)%Z /\ (blend p m <= Z.max p m)%Z.
Proof. rewrite blend_integer. Z.div_mod_to_equations. lia. Qed.

Lemma blend_closer (p m : Z) : (Z.abs (blend p m - m) <= Z.abs (p - m))%Z.
Proof. rewrite blend_integer. Z.div_mod_to_equations. lia. Qed.

Lemma blend_strictly_closer (p m : Z) :
  (2 <= Z.abs (p - m))%Z -> (Z.abs (blend p m - m) < Z.abs (p - m))%Z.
Proof. rewrite blend_integer. Z.div_mod_to_equations. lia. Qed.

Lemma blend_stalls (p m : Z) : (Z.abs (p - m) <= 1)%Z -> blend p m = p.
Proof. rewrite blend_integer. Z.div_mod_to_equations. lia. Qed.

Lemma blend_hits_mean (p m : Z) : blend p m = m <-> p = m.
Proof. rewrite blend_integer. Z.div_mod_to_equations. lia. Qed.

(** X7: each forecast lies between the last historical score and the
    rounded mean, no forecast is farther from the mean than the value before
    it, and a forecast equals the mean only when the value before it already
    did: within one point of the mean the forecast stays where it is. *)
Theorem forecasts_approach_mean (hist : list Z) :
  Forall (fun p => (Z.min (lastR hist) (meanR hist) <= p)%Z /\
                   (p <= Z.max (lastR hist) (meanR hist))%Z)
         [proj1 hist; proj2 hist; proj3 hist] /\
  (Z.abs (proj1 hist - meanR hist) <= Z.abs (lastR hist - meanR hist))%Z /\
  (Z.abs (proj2 hist - meanR hist) <= Z.abs (proj1 hist - meanR hist))%Z /\
  (Z.abs (proj3 hist - meanR hist) <= Z.abs (proj2 hist - meanR hist))%Z /\
  (forall p m : Z, blend p m = m <-> p = m) /\
  (forall p m : Z, (Z.abs (p - m) <= 1)%Z -> blend p m = p) /\
  (forall p m : Z, (2 <= Z.abs (p - m))%Z ->
                   (Z.abs (blend p m - m) < Z.abs (p - m))%Z).
Proof.
  unfold proj3, proj2, proj1.
  set (l := lastR hist). set (m := meanR hist).
  pose proof (blend_between l m) as H1.
  pose proof (blend_between (blend l m) m) as H2.
  pose proof (blend_between (blend (blend l m) m) m) as H3.
  split; [repeat constructor; lia|].
  split; [apply blend_closer|]. split; [apply blend_closer|].
  split; [apply blend_closer|]. split; [apply blend_hits_mean|].
  split; [apply blend_stalls | apply blend_strictly_closer].
Qed.

Lemma sum_bounds (lo hi : Z) (hist : list Z) :
  Forall (fun x => (lo <= x)%Z /\ (x <= hi)%Z) hist ->
  (lo * Z.of_nat (length hist) <= fold_right Z.add 0 hist)%Z /\
  (fold_right Z.add 0 hist <= hi * Z.of_nat (length hist))%Z.
Proof.
  induction 1 as [|x xs [Hlo Hhi] _ IH]; simpl length; simpl fold_right; [lia|].
  rewrite Nat2Z.inj_succ. lia.
Qed.

Lemma meanR_bounds (lo hi : Z) (hist : list Z) :
  hist <> [] ->
  Forall (fun x => (lo <= x)%Z /\ (x <= hi)%Z) hist ->
  (lo <= meanR hist)%Z /\ (meanR hist <= hi)%Z.
Proof.
  intros Hne Hall. unfold meanR. rewrite truthyNum_len.
  destruct hist as [|h hist]; [contradiction|].
  rewrite fold_left_Zadd, Z.add_0_l.
  destruct (sum_bounds lo hi _ Hall) as [Hlo Hhi].
  pose proof (len_pos (h :: hist) ltac:(discriminate)) as Hpos.
  apply Math_round_bounds.
  - apply Qle_shift_div_l; [exact Hpos|].
    unfold JS.len. rewrite <- inject_Z_mult, <- Zle_Qle. exact Hlo.
  - apply Qle_shift_div_r; [exact Hpos|].
    unfold JS.len. rewrite <- inject_Z_mult, <- Zle_Qle. exact Hhi.
Qed.

Lemma lastR_bounds (lo hi : Z) (hist : list Z) :
  hist <> [] ->
  Forall (fun x => (lo <= x)%Z /\ (x <= hi)%Z) hist ->
  (lo <= lastR hist)%Z /\ (lastR hist <= hi)%Z.
Proof.
  intros Hne Hall. unfold lastR.
  destruct (last hist) as [x|] eqn:L.
  - apply last_Some_elem_of in L. rewrite Forall_forall in Hall. exact (Hall x L).
  - apply last_None in L. contradiction.
Qed.

Lemma projection_bounds (lo hi : Z) (hist : list Z) :
  hist <> [] ->
  Forall (fun x => (lo <= x)%Z /\ (x <= hi)%Z) hist ->
  Forall (fun x => (lo <= x)%Z /\ (x <= hi)%Z) (projection hist).
Proof.
  intros Hne Hall. unfold projection. apply Forall_app. split.
  - unfold JS.slice_last. apply Forall_drop. exact Hall.
  - destruct (meanR_bounds lo hi hist Hne Hall) as [Hm1 Hm2].
    destruct (lastR_bounds lo hi hist Hne Hall) as [Hl1 Hl2].
    unfold proj3, proj2, proj1.
    pose proof (blend_between (lastR hist) (meanR hist)) as H1.
    pose proof (blend_between (blend (lastR hist) (meanR hist)) (meanR hist)) as H2.
    pose proof (blend_between (blend (blend (lastR hist) (meanR hist)) (meanR hist))
                              (meanR hist)) as H3.
    repeat constructor; lia.
Qed.

(** X8: the projection never leaves the range of the history: when every
    historical score lies between two bounds, so does every value of the
    output, forecasts included; in particular a flat history is projected
    flat.  Without any history the output is 70, 70, 70. *)
Theorem projection_within_history (lo hi : Z) (hist : list Z) :
  hist <> [] ->
  Forall (fun x => (lo <= x)%Z /\ (x <= hi)%Z) hist ->
  Forall (fun x => (lo <= x)%Z /\ (x <= hi)%Z) (projection hist) /\
  projection [] = [70; 70; 70]%Z.
Proof.
  intros Hne Hall. split; [apply projection_bounds; assumption|].
  vm_compute. reflexivity.
Qed.

Lemma projection_within_history_witness :
  Forall (fun x => (82 <= x)%Z /\ (x <= 82)%Z) (projection [82; 82; 82; 82]%Z) /\
  projection [] = [70; 70; 70]%Z.
Proof.
  apply projection_within_history; [discriminate|].
  repeat constructor; lia.
Defined.

End Forecast.

(** ** The history behind the projection *)

Section HistoryFacts.

Variable undefinedAt : nat -> bool.

Lemma histH_range (hr : list HRRow) (i : nat) : 0 <= histH hr i <= 1.
Proof.
  unfold histH. destruct (hr !! i) as [r|]; [|split; lra].
  destruct (avg_bpm r); [apply clamp_unit | split; lra].
Qed.

Lemma histSt_range (st : list StepsRow) (i : nat) :
  0.8 <= histSt undefinedAt st i <= 1.
Proof.
  unfold histSt. destruct (histRel undefinedAt st i) as [r|]; [|split; lra].
  split; [apply stepsScore_min | apply stepsScore_range].
Qed.

Lemma histScore_range (s : Snapshot) (d : string) :
  (16 <= histScore undefinedAt s d)%Z /\ (histScore undefinedAt s d <= 100)%Z.
Proof.
  unfold histScore. cbv zeta.
  destruct (clamp_unit (totalSleepMinutes (sleepByDate (sleepRows s)) d / 480))
    as (Hs & _).
  pose proof (histH_range (hr7 s) (hrIdx (hr7 s) d)) as Hh.
  pose proof (histSt_range (steps7 s) (hrIdx (hr7 s) d)) as Ht.
  cbv zeta in Hs.
  apply Math_round_bounds.
  - change (inject_Z 16) with 16. nra.
  - change (inject_Z 100) with 100. nra.
Qed.

Lemma hist_range (s : Snapshot) :
  Forall (fun x => (16 <= x)%Z /\ (x <= 100)%Z) (hist undefinedAt s).
Proof.
  unfold hist. apply Forall_forall. intros x Hx.
  apply list_elem_of_In, in_map_iff in Hx as (d & <- & _).
  apply histScore_range.
Qed.

(** X9: the projection chart is well formed for every snapshot: there is one
    historical score per aligned date, every value drawn (historical or
    forecast) is an integer between 16 and 100, the data have exactly as many
    points as there are labels, and without sleep rows the chart shows the
    three forecasts 70, 70, 70 under the labels D+1, D+2, D+3. *)
Theorem projection_chart_well_formed (s : Snapshot) :
  length (hist undefinedAt s) = length (sleepDates (sleepRows s)) /\
  Forall (fun x => (16 <= x)%Z /\ (x <= 100)%Z) (projectionData undefinedAt s) /\
  length (projectionData undefinedAt s) = length (projectionLabels s) /\
  (sleepRows s = [] ->
   projectionData undefinedAt s = [70; 70; 70]%Z /\
   projectionLabels s = ["D+1"; "D+2"; "D+3"]).
Proof.
  split; [unfold hist; apply length_map|].
  split.
  { unfold projectionData. destruct (hist undefinedAt s) as [|h hs] eqn:E.
    - vm_compute. repeat constructor; discriminate.
    - apply projection_bounds; [discriminate|]. rewrite <- E. apply hist_range. }
  split.
  { unfold projectionData, projectionLabels, projection.
    rewrite !length_app, !slice_last_length. unfold hist. rewrite length_map.
    reflexivity. }
  intros H. unfold projectionData, projectionLabels, hist. rewrite H.
  split; vm_compute; reflexivity.
Qed.

Lemma ltb_comp (x x' y y' : Q) : x == x' -> y == y' -> JS.ltb x y = JS.ltb x' y'.
Proof.
  intros Hx Hy.
  destruct (JS.ltb x y) eqn:E, (JS.ltb x' y') eqn:E'; try reflexivity.
  - apply ltb_true in E. apply ltb_false in E'. exfalso. lra.
  - apply ltb_false in E. apply ltb_true in E'. exfalso. lra.
Qed.

Lemma stepsScore_comp (r r' : Q) : r == r' -> stepsScore r = stepsScore r'.
Proof.
  intros H. unfold stepsScore, JS.gtb.
  rewrite (ltb_comp 1.35 1.35 r r'), (ltb_comp r r' 0.6 0.6),
    (ltb_comp r r' 0.85 0.85), (ltb_comp 1.15 1.15 r r');
    first [reflexivity | exact H].
Qed.

End HistoryFacts.

Section HistoryAlignment.

Variable undefinedAt : nat -> bool.

Lemma hrAvg_has_last (hr : list HRRow) (r : HRRow) (b : Q) :
  last hr = Some r -> avg_bpm r = Some b -> hrAvg hr <> [].
Proof.
  intros Hl Hb. apply last_Some in Hl as [hr' ->].
  unfold hrAvg. rewrite omap_app. simpl. rewrite Hb.
  destruct (omap avg_bpm hr'); discriminate.
Qed.

Lemma histWeekly_weeklyAvg (hr : list HRRow) :
  hrAvg hr <> [] -> histWeekly hr = weeklyAvg hr.
Proof.
  intros Hne. unfold histWeekly, weeklyAvg. rewrite truthyNum_len.
  destruct (hrAvg hr); [contradiction | reflexivity].
Qed.

Lemma len_stepsVals (st : list StepsRow) : JS.len (stepsVals st) = JS.len st.
Proof. unfold JS.len, stepsVals. rewrite length_map. reflexivity. Qed.

Lemma histSt_last (st : list StepsRow) (sr : StepsRow) (q : Q) :
  last st = Some sr -> steps sr = Some q ->
  histSt undefinedAt st (length st - 1) = stepsScore (rel st).
Proof.
  intros Hl Hq.
  assert (st !! (length st - 1)%nat = Some sr) as Hlook.
  { rewrite <- Hl, last_lookup. f_equal. lia. }
  assert (st <> []) as Hne by (intros ->; discriminate).
  unfold histSt, histRel, sVal, histSAvg, rel, sAvg. cbv zeta.
  assert (last (stepsVals st) = Some (JS.orZero (Some q))) as Hlast.
  { unfold stepsVals. rewrite last_map, Hl. simpl. rewrite Hq. reflexivity. }
  rewrite Hlook, Hq, len_stepsVals, Hlast, (truthyNum_len st).
  destruct st as [|x st']; [contradiction|].
  destruct (JS.truthyNum (JS.sum (stepsVals (x :: st')) / JS.len (x :: st')));
    [|reflexivity].
  apply stepsScore_comp. rewrite orZero_Some. reflexivity.
Qed.

(** X10: when the series are aligned on the last day, the last historical
    point of the projection chart is the readiness value of the gauge: the
    last aligned date is non-empty, first occurs in the heart-rate series at
    its last record, that record has a reading, and the steps series has as
    many rows as the heart-rate series and a count in its last row. *)
Theorem last_history_point_is_readiness
    (s : Snapshot) (d : string) (r : HRRow) (b : Q) (sr : StepsRow) (q : Q) :
  last (sleepDates (sleepRows s)) = Some d ->
  JS.truthyStr d = true ->
  last (hr7 s) = Some r -> avg_bpm r = Some b ->
  indexOf d (hrLabels (hr7 s)) = Some (length (hr7 s) - 1)%nat ->
  length (steps7 s) = length (hr7 s) ->
  last (steps7 s) = Some sr -> steps sr = Some q ->
  exists v : Z, readiness s = Some v /\ last (hist undefinedAt s) = Some v.
Proof.
  intros Hd Hdt Hr Hb Hidx Hlen Hsr Hq.
  unfold readiness, components. rewrite yesterday_total, Hr, Hb. simpl.
  eexists. split; [reflexivity|].
  unfold hist. rewrite last_map, Hd. simpl. f_equal.
  unfold histScore, composite, hrIdx. cbv zeta. simpl c_sleep. simpl c_hr. simpl c_steps.
  rewrite Hidx. simpl default.
  assert (histH (hr7 s) (length (hr7 s) - 1) = hrScore b (weeklyAvg (hr7 s))) as ->.
  { unfold histH.
    assert (hr7 s !! (length (hr7 s) - 1)%nat = Some r) as ->.
    { rewrite <- Hr, last_lookup. f_equal. lia. }
    rewrite Hb, (histWeekly_weeklyAvg _ (hrAvg_has_last _ _ _ Hr Hb)). reflexivity. }
  rewrite <- Hlen, (histSt_last _ _ _ Hsr Hq).
  assert (sleepMin (sleepRows s)
          = totalSleepMinutes (sleepByDate (sleepRows s)) d) as ->.
  { unfold sleepMin. rewrite Hd, Hdt. reflexivity. }
  reflexivity.
Qed.

End HistoryAlignment.

Lemma last_history_point_is_readiness_witness :
  exists v : Z,
    readiness {| sleepRows := sampleSleep; hr7 := sampleHR; hrIntra := [];
                 steps7 := drop 4 sampleSteps; cal7 := [] |} = Some v /\
    last (hist (fun _ => false)
               {| sleepRows := sampleSleep; hr7 := sampleHR; hrIntra := [];
                  steps7 := drop 4 sampleSteps; cal7 := [] |}) = Some v.
Proof.
  eapply (last_history_point_is_readiness (fun _ => false) _ "2024-05-03");
    reflexivity.
Defined.

(** With the sample week the two differ: the heart-rate series has three
    records and the steps series seven, so the history reads the steps of
    the third row instead of the last. *)
Example history_not_aligned :
  last (hist (fun _ => false) (sampleSnapshot [] [])) = Some 93%Z /\
  readiness (sampleSnapshot [] []) = Some 90%Z.
Proof. split; vm_compute; reflexivity. Qed.

(** ** The dashboard's own series through the chart components *)

Section OwnSeries.

Import Chart.

Lemma barEntry_numV (q : Q) :
  barEntry (numV q) = numV (if Qeq_bool q 0 then 0 else q).
Proof.
  unfold barEntry, numV. simpl. unfold JS.truthyNum.
  destruct (Qeq_bool q 0); reflexivity.
Qed.

Lemma orZero_canonical (o : option Q) :
  (if Qeq_bool (JS.orZero o) 0 then 0 else JS.orZero o) = JS.orZero o.
Proof.
  destruct o as [q|]; simpl; [|reflexivity].
  destruct (Qeq_bool q 0) eqn:E; simpl; [reflexivity|]. rewrite E. reflexivity.
Qed.

Lemma barEntry_orZero (o : option Q) :
  barEntry (numV (JS.orZero o)) = numV (JS.orZero o).
Proof. rewrite barEntry_numV, orZero_canonical. reflexivity. Qed.

Lemma trendEntry_numV (q : Q) : trendEntry (numV q) = numV q.
Proof. reflexivity. Qed.

Lemma trendEntry_nullable (o : option Q) : trendEntry (nullable o) = nullable o.
Proof. destruct o; reflexivity. Qed.

Lemma map_barEntry_stage (rows : list SleepRow) (s : string) :
  map barEntry (map numV (stageSeries rows s)) = map numV (stageSeries rows s).
Proof.
  unfold stageSeries. rewrite !map_map. apply map_ext. intros d.
  unfold stageMinutes. apply barEntry_orZero.
Qed.

Lemma totalSleepMinutes_stages (byDate : gmap string (gmap string Q)) (d : string) :
  totalSleepMinutes byDate d ==
    stageMinutes byDate d "Light sleep" + stageMinutes byDate d "Deep sleep"
    + stageMinutes byDate d "REM sleep".
Proof. unfold totalSleepMinutes, sleepStages. simpl. lra. Qed.

(** X11: the stacked sleep chart shows the aggregated minutes unchanged: the
    bar coercion leaves the three stage series as they are (numbers only,
    neither [null] nor [NaN]), each series has one value per aligned date,
    and for every aligned date the three stacked values add up to the total
    sleep minutes of that date. *)
Theorem sleep_chart_stacks_to_total (rows : list SleepRow) :
  StackedBar (sleepDatasets rows) =
    [ ("Light sleep", map numV (stageSeries rows "Light sleep"));
      ("Deep sleep", map numV (stageSeries rows "Deep sleep"));
      ("REM sleep", map numV (stageSeries rows "REM sleep")) ] /\
  Forall (fun s => length (stageSeries rows s) = length (sleepDates rows)) sleepStages /\
  (forall (i : nat) (d : string),
     sleepDates rows !! i = Some d ->
     exists l p r : Q,
       stageSeries rows "Light sleep" !! i = Some l /\
       stageSeries rows "Deep sleep" !! i = Some p /\
       stageSeries rows "REM sleep" !! i = Some r /\
       l + p + r == totalSleepMinutes (sleepByDate rows) d).
Proof.
  split.
  { unfold StackedBar, sleepDatasets. simpl. rewrite !map_barEntry_stage. reflexivity. }
  split.
  { unfold sleepStages, stageSeries. repeat constructor; apply length_map. }
  intros i d Hd. unfold stageSeries.
  eexists. eexists. eexists.
  split; [change (@map string Q) with (@list_fmap string Q);
          rewrite list_lookup_fmap, Hd; reflexivity|].
  split; [change (@map string Q) with (@list_fmap string Q);
          rewrite list_lookup_fmap, Hd; reflexivity|].
  split; [change (@map string Q) with (@list_fmap string Q);
          rewrite list_lookup_fmap, Hd; reflexivity|].
  symmetry. apply totalSleepMinutes_stages.
Qed.

(** X12: the line chart draws the dashboard's own trend series as they are:
    a day without a heart-rate reading is a gap ([null]) in the average,
    minimum and maximum lines, while a day without a steps or calories count
    is drawn as 0; none of these series ever contains [NaN]. *)
Theorem own_trend_series_unchanged (s : Snapshot) :
  TrendLine (hrTrend (hr7 s)) =
    [ ("Avg", map (fun r => nullable (avg_bpm r)) (hr7 s));
      ("Min", map (fun r => nullable (min_bpm r)) (hr7 s));
      ("Max", map (fun r => nullable (max_bpm r)) (hr7 s)) ] /\
  TrendLine (stepsTrend (steps7 s)) =
    [ ("Steps", map (fun r => numV (JS.orZero (steps r))) (steps7 s)) ] /\
  TrendLine (calTrend (cal7 s)) =
    [ ("Total kcal", map (fun r => numV (JS.orZero (kcal r))) (cal7 s)) ] /\
  Forall (fun out => Forall (fun v => v <> Num NaN) out.2)
         (TrendLine (hrTrend (hr7 s) ++ stepsTrend (steps7 s) ++ calTrend (cal7 s))).
Proof.
  assert (forall (A : Type) (f : A -> option Q) (l : list A),
            map trendEntry (map (fun r => nullable (f r)) l)
            = map (fun r => nullable (f r)) l) as Hnull.
  { intros A f l. rewrite map_map. apply map_ext. intros r. apply trendEntry_nullable. }
  assert (forall (A : Type) (f : A -> option Q) (l : list A),
            Forall (fun v => v <> Num NaN) (map (fun r => nullable (f r)) l)) as Hnn.
  { intros A f l. apply Forall_forall. intros v Hv.
    apply list_elem_of_In, in_map_iff in Hv as (r & <- & _).
    destruct (f r); discriminate. }
  assert (forall (A : Type) (f : A -> Q) (l : list A),
            Forall (fun v => v <> Num NaN) (map (fun r => numV (f r)) l)) as Hnum.
  { intros A f l. apply Forall_forall. intros v Hv.
    apply list_elem_of_In, in_map_iff in Hv as (r & <- & _). discriminate. }
  unfold TrendLine, hrTrend, stepsTrend, calTrend, stepsVals, calVals. simpl.
  rewrite !Hnull, !map_map. simpl.
  repeat apply conj; try reflexivity.
  repeat constructor; simpl; first [apply Hnn | apply Hnum].
Qed.

End OwnSeries.

(** ** Stability of the coercions and the coach's chart *)

Section CoercionStability.

Import Chart.

Lemma trendEntry_idempotent (v : value) : trendEntry (trendEntry v) = trendEntry v.
Proof.
  unfold trendEntry at 2 3. destruct (looseNull v || isEmptyStr v); reflexivity.
Qed.

Lemma barEntry_number (v : value) : exists n, barEntry v = Num n.
Proof. unfold barEntry. eauto. Qed.

(** X13: re-shaping shaped data is harmless.  The line-chart coercion is
    idempotent; the bar coercion returns an equal number when given a number
    it produced, except that a [NaN] it produced (from a string that is not a
    number) becomes 0 on the second pass. *)
Theorem coercion_is_stable :
  (forall vs : list value, map trendEntry (map trendEntry vs) = map trendEntry vs) /\
  (forall (v : value) (n : number),
     barEntry v = Num n -> n <> NaN ->
     exists n', barEntry (barEntry v) = Num n' /\ number_equiv n' n) /\
  (forall v : value, barEntry v = Num NaN -> barEntry (barEntry v) = Num (Fin 0)).
Proof.
  repeat apply conj.
  - intros vs. rewrite map_map. apply map_ext, trendEntry_idempotent.
  - intros v n -> Hn. destruct n as [q| |b]; [| contradiction |].
    + change (Num (Fin q)) with (numV q). rewrite barEntry_numV.
      eexists. split; [reflexivity|]. simpl.
      destruct (Qeq_bool q 0) eqn:E; [|reflexivity].
      apply Qeq_bool_iff in E. symmetry. exact E.
    + eexists. split; reflexivity.
  - intros v ->. reflexivity.
Qed.

End CoercionStability.

Section CoachChart.

Import Chart.

Lemma trendEntry_shape (v : value) : trendEntry v = Null \/ exists n, trendEntry v = Num n.
Proof. unfold trendEntry. destruct (looseNull v || isEmptyStr v); eauto. Qed.

Lemma TrendLine_values (ds : list Dataset) :
  Forall (fun out => Forall (fun v => v = Null \/ exists n, v = Num n) out.2) (TrendLine ds).
Proof.
  unfold TrendLine. apply Forall_forall. intros out Hout.
  apply list_elem_of_In, in_map_iff in Hout as (d & <- & _). simpl.
  apply Forall_forall. intros v Hv.
  apply list_elem_of_In, in_map_iff in Hv as (w & <- & _). apply trendEntry_shape.
Qed.

Lemma StackedBar_values (ds : list Dataset) :
  Forall (fun out => Forall (fun v => exists n, v = Num n) out.2) (StackedBar ds).
Proof.
  unfold StackedBar. apply Forall_forall. intros out Hout.
  apply list_elem_of_In, in_map_iff in Hout as (d & <- & _). simpl.
  apply Forall_forall. intros v Hv.
  apply list_elem_of_In, in_map_iff in Hv as (w & <- & _). apply barEntry_number.
Qed.

Lemma TrendLine_labels (ds : list Dataset) : map fst (TrendLine ds) = map label ds.
Proof. unfold TrendLine. rewrite map_map. reflexivity. Qed.

Lemma StackedBar_labels (ds : list Dataset) : map fst (StackedBar ds) = map label ds.
Proof. unfold StackedBar. rewrite map_map. reflexivity. Qed.

(** X14: the coach's chart.  Without a specification only the hint is shown.
    A specification whose [datasets] are [null] cannot be drawn: mapping over
    them is a [TypeError].  Otherwise (missing [datasets] count as none) the
    specification is drawn as a stacked bar chart exactly when its type is
    ["bar"] or ["stackedBar"] and its [stacked] flag is truthy; every other
    specification, a ["stackedBar"] without the flag included, is drawn as a
    line chart.  Either way the labels are passed on (none when missing),
    there is one series per dataset with the dataset's label, bar values are
    always numbers, and line values are numbers or [null]. *)
Theorem coach_chart_routing (sp : AIChart.Spec) :
  AIChart.render None = Some AIChart.Hint /\
  (AIChart.datasets sp = AIChart.IsNull <-> AIChart.render (Some sp) = None) /\
  (AIChart.labels sp = AIChart.Missing -> AIChart.passedLabels sp = Some []) /\
  (forall ds : list Dataset,
     AIChart.passedDatasets sp = Some ds ->
     ((AIChart.type sp = Some "bar" \/ AIChart.type sp = Some "stackedBar") /\
      truthy (AIChart.stacked sp) = true) ->
     exists series,
       AIChart.render (Some sp)
       = Some (AIChart.Bar (AIChart.passedLabels sp) series (AIChart.shownTitle sp)) /\
       series = StackedBar ds /\
       map fst series = map label ds /\
       Forall (fun out => Forall (fun v => exists n, v = Num n) out.2) series) /\
  (forall ds : list Dataset,
     AIChart.passedDatasets sp = Some ds ->
     ~ ((AIChart.type sp = Some "bar" \/ AIChart.type sp = Some "stackedBar") /\
        truthy (AIChart.stacked sp) = true) ->
     exists series,
       AIChart.render (Some sp)
       = Some (AIChart.Line (AIChart.passedLabels sp) series (AIChart.shownTitle sp)) /\
       series = TrendLine ds /\
       map fst series = map label ds /\
       Forall (fun out => Forall (fun v => v = Null \/ exists n, v = Num n) out.2) series).
Proof.
  assert (bool_decide (AIChart.kind sp = Some "bar") = true <->
          (AIChart.type sp = Some "bar" \/ AIChart.type sp = Some "stackedBar")) as Hkind.
  { rewrite bool_decide_eq_true. unfold AIChart.kind.
    destruct (decide (AIChart.type sp = Some "stackedBar")) as [E|E].
    - rewrite (bool_decide_eq_true_2 _ E). tauto.
    - rewrite (bool_decide_eq_false_2 _ E). tauto. }
  split; [reflexivity|]. unfold AIChart.render, AIChart.passedDatasets.
  split.
  { destruct (AIChart.datasets sp); simpl; split; try discriminate; reflexivity. }
  split.
  { unfold AIChart.passedLabels. intros ->. reflexivity. }
  split.
  - intros ds Hds [Ht Hs]. rewrite Hds. simpl. apply Hkind in Ht. rewrite Ht, Hs. simpl.
    eexists. split; [reflexivity|]. split; [reflexivity|].
    split; [apply StackedBar_labels | apply StackedBar_values].
  - intros ds Hds Hnot. rewrite Hds. simpl.
    destruct (bool_decide (AIChart.kind sp = Some "bar")) eqn:Ek;
      destruct (truthy (AIChart.stacked sp)) eqn:Es; simpl;
      try (exfalso; apply Hnot; split; [apply Hkind; reflexivity | reflexivity]);
      (eexists; split; [reflexivity|]; split; [reflexivity|];
       split; [apply TrendLine_labels | apply TrendLine_values]).
Qed.

Lemma coach_chart_routing_witness :
  exists series,
    AIChart.render
      (Some {| AIChart.type := Some "stackedBar"; AIChart.stacked := Undefined;
               AIChart.labels := AIChart.Has ["Mon"; "Tue"];
               AIChart.datasets := AIChart.Has [ {| label := "Deep sleep";
                                                    data := Some [Num (Fin 92); Null] |} ];
               AIChart.title := Some "Deep sleep" |})
    = Some (AIChart.Line (Some ["Mon"; "Tue"]) series (Some "Deep sleep")) /\
    series = TrendLine [ {| label := "Deep sleep"; data := Some [Num (Fin 92); Null] |} ] /\
    map fst series = ["Deep sleep"] /\
    Forall (fun out => Forall (fun v => v = Null \/ exists n, v = Num n) out.2) series.
Proof.
  apply (coach_chart_routing
           {| AIChart.type := Some "stackedBar"; AIChart.stacked := Undefined;
              AIChart.labels := AIChart.Has ["Mon"; "Tue"];
              AIChart.datasets := AIChart.Has [ {| label := "Deep sleep";
                                                   data := Some [Num (Fin 92); Null] |} ];
              AIChart.title := Some "Deep sleep" |}).
  - reflexivity.
  - simpl. intros [_ H]. discriminate H.
Defined.

(** A specification with [null] datasets is not drawn. *)
Example coach_chart_null_datasets :
  AIChart.render
    (Some {| AIChart.type := Some "line"; AIChart.stacked := Undefined;
             AIChart.labels := AIChart.Missing; AIChart.datasets := AIChart.IsNull;
             AIChart.title := None |}) = None.
Proof. reflexivity. Qed.

End CoachChart.

(** ** Aggregation: order of the rows and the buckets *)

Section AggregationFacts.

Lemma stageSum_perm (rows rows' : list SleepRow) (d s : string) :
  rows ≡ₚ rows' -> Spec.stageSum rows d s == Spec.stageSum rows' d s.
Proof.
  induction 1 as [|r l l' _ IH|r1 r2 l|l1 l2 l3 _ IH1 _ IH2]; simpl.
  - reflexivity.
  - destruct (bool_decide (date r = d) && bool_decide (stage r = s));
      rewrite IH; reflexivity.
  - destruct (bool_decide (date r1 = d) && bool_decide (stage r1 = s)),
             (bool_decide (date r2 = d) && bool_decide (stage r2 = s)); lra.
  - rewrite IH1. exact IH2.
Qed.

Lemma sort_perm (xs ys : list string) : xs ≡ₚ ys -> JS.sort xs = JS.sort ys.
Proof.
  intros H. apply sort_unique; [|apply sort_sorted].
  unfold JS.sort. rewrite merge_sort_Permutation. exact H.
Qed.

Lemma uniq_perm (xs ys : list string) : xs ≡ₚ ys -> JS.uniq xs ≡ₚ JS.uniq ys.
Proof.
  intros H. apply NoDup_Permutation; [apply uniq_NoDup | apply uniq_NoDup |].
  intros d. rewrite !uniq_elem_of, H. tauto.
Qed.

Lemma sleepDates_perm (rows rows' : list SleepRow) :
  rows ≡ₚ rows' -> sleepDates rows = sleepDates rows'.
Proof.
  intros H. unfold sleepDates. f_equal. apply sort_perm, uniq_perm.
  apply Permutation_map. exact H.
Qed.

Lemma sleepMin_perm (rows rows' : list SleepRow) :
  rows ≡ₚ rows' -> sleepMin rows == sleepMin rows'.
Proof.
  intros H. unfold sleepMin. rewrite (sleepDates_perm _ _ H).
  destruct (last (sleepDates rows')) as [d|]; [|reflexivity].
  destruct (JS.truthyStr d); [|reflexivity].
  rewrite !totalSleepMinutes_sum, !(stageSum_perm _ _ d _ H). reflexivity.
Qed.

(** X15: the order of the sleep rows does not matter when the minutes are
    whole numbers: two snapshots whose sleep rows are rearrangements of each
    other (and whose heart-rate and steps series are the same) have the same
    aligned dates, the same minutes for every date and stage, and the same
    readiness value.  (With fractional minutes the sums of the program can
    differ in the last digit from one order to another.) *)
Theorem row_order_is_irrelevant (s s' : Snapshot) :
  forallb wholeMinutes (sleepRows s) = true ->
  sleepRows s ≡ₚ sleepRows s' -> hr7 s = hr7 s' -> steps7 s = steps7 s' ->
  forallb wholeMinutes (sleepRows s') = true /\
  sleepDates (sleepRows s) = sleepDates (sleepRows s') /\
  (forall d st : string,
     stageMinutes (sleepByDate (sleepRows s)) d st
     == stageMinutes (sleepByDate (sleepRows s')) d st) /\
  readiness s = readiness s'.
Proof.
  intros Hwhole Hperm Hhr Hst.
  split.
  { rewrite forallb_forall in Hwhole |- *. intros r Hr. apply Hwhole.
    apply list_elem_of_In. rewrite Hperm. apply list_elem_of_In, Hr. }
  split; [apply sleepDates_perm, Hperm|].
  split.
  { intros d st. rewrite !stageMinutes_sleepByDate. apply stageSum_perm, Hperm. }
  unfold readiness, components. rewrite Hhr, Hst, yesterday_total. simpl. f_equal.
  unfold composite. simpl. apply Math_round_comp.
  assert (sleepScore (sleepMin (sleepRows s)) == sleepScore (sleepMin (sleepRows s'))) as ->.
  { unfold sleepScore. rewrite goal_truthy. apply clamp_unit_comp.
    rewrite (sleepMin_perm _ _ Hperm). reflexivity. }
  reflexivity.
Qed.

Lemma row_order_is_irrelevant_witness :
  forallb wholeMinutes (rev sampleSleep) = true /\
  sleepDates sampleSleep = sleepDates (rev sampleSleep) /\
  (forall d st : string,
     stageMinutes (sleepByDate sampleSleep) d st
     == stageMinutes (sleepByDate (rev sampleSleep)) d st) /\
  readiness (sampleSnapshot [] [])
  = readiness {| sleepRows := rev sampleSleep; hr7 := sampleHR; hrIntra := [];
                 steps7 := sampleSteps; cal7 := [] |}.
Proof.
  apply (row_order_is_irrelevant
           (sampleSnapshot [] [])
           {| sleepRows := rev sampleSleep; hr7 := sampleHR; hrIntra := [];
              steps7 := sampleSteps; cal7 := [] |});
    [reflexivity| |reflexivity|reflexivity].
  simpl sleepRows. apply Permutation_rev.
Defined.

Lemma sleepByDate_snoc (rows : list SleepRow) (r : SleepRow) :
  sleepByDate (rows ++ [r]) = sleepByDate_step (sleepByDate rows) r.
Proof. unfold sleepByDate. rewrite fold_left_app. reflexivity. Qed.

Lemma bucket_exists (rows : list SleepRow) (d : string) :
  is_Some (sleepByDate rows !! d) <-> exists r, r ∈ rows /\ date r = d.
Proof.
  induction rows as [|r rows IH] using rev_ind.
  - unfold sleepByDate. simpl. rewrite lookup_empty. split.
    + intros [? ?]. discriminate.
    + intros (r & Hr & _). apply elem_of_nil in Hr. contradiction.
  - rewrite sleepByDate_snoc. unfold sleepByDate_step. cbv zeta.
    destruct (decide (date r = d)) as [E|E].
    + rewrite <- E, lookup_insert_eq. split; [|eauto].
      intros _. exists r. split; [apply elem_of_app; right; left | reflexivity].
    + rewrite lookup_insert_ne by exact E. rewrite IH. split.
      * intros (r' & Hr' & Hd). exists r'. split; [apply elem_of_app; tauto | exact Hd].
      * intros (r' & Hr' & Hd). apply elem_of_app in Hr' as [Hr'|Hr']; [eauto|].
        apply list_elem_of_singleton in Hr'. subst r'. contradiction.
Qed.

Lemma stage_key_exists (rows : list SleepRow) (d s : string) :
  is_Some (sleepByDate rows !! d ≫= fun b => b !! s) <->
  exists r, r ∈ rows /\ date r = d /\ stage r = s.
Proof.
  induction rows as [|r rows IH] using rev_ind.
  - unfold sleepByDate. simpl. rewrite lookup_empty. split.
    + intros [? ?]. discriminate.
    + intros (r & Hr & _). apply elem_of_nil in Hr. contradiction.
  - rewrite sleepByDate_snoc. unfold sleepByDate_step. cbv zeta.
    destruct (decide (date r = d)) as [E|E].
    + rewrite <- E, lookup_insert_eq. simpl.
      destruct (decide (stage r = s)) as [Es|Es].
      * rewrite <- Es, lookup_insert_eq. split; [|eauto].
        intros _. exists r. split; [apply elem_of_app; right; left | tauto].
      * rewrite lookup_insert_ne by exact Es.
        assert (default ∅ (sleepByDate rows !! date r) !! s
                = sleepByDate rows !! date r ≫= fun b => b !! s) as ->.
        { destruct (sleepByDate rows !! date r); simpl; [reflexivity|].
          apply lookup_empty. }
        rewrite <- E in IH. rewrite IH. split.
        -- intros (r' & Hr' & Hd). exists r'. split; [apply elem_of_app; tauto | exact Hd].
        -- intros (r' & Hr' & Hd & Hs). apply elem_of_app in Hr' as [Hr'|Hr']; [eauto|].
           apply list_elem_of_singleton in Hr'. subst r'. contradiction.
    + rewrite lookup_insert_ne by exact E. rewrite IH. split.
      * intros (r' & Hr' & Hd). exists r'. split; [apply elem_of_app; tauto | exact Hd].
      * intros (r' & Hr' & Hd & Hs). apply elem_of_app in Hr' as [Hr'|Hr']; [eauto|].
        apply list_elem_of_singleton in Hr'. subst r'. contradiction.
Qed.

(** X16: the date/stage dictionary has exactly the keys of the rows: a date
    has a bucket when some row carries that date, a bucket has a stage when
    some row carries that date and stage, and every aligned date has a
    bucket. *)
Theorem buckets_follow_rows (rows : list SleepRow) :
  (forall d : string,
     is_Some (sleepByDate rows !! d) <-> exists r, r ∈ rows /\ date r = d) /\
  (forall d s : string,
     is_Some (sleepByDate rows !! d ≫= fun b => b !! s) <->
     exists r, r ∈ rows /\ date r = d /\ stage r = s) /\
  Forall (fun d => is_Some (sleepByDate rows !! d)) (sleepDates rows).
Proof.
  split; [intros d; apply bucket_exists|].
  split; [intros d s; apply stage_key_exists|].
  apply Forall_forall. intros d Hd. apply bucket_exists.
  unfold sleepDates, JS.slice_last in Hd.
  apply (subseteq_drop _ _ d) in Hd.
  apply sort_elem_of, uniq_elem_of, list_elem_of_In, in_map_iff in Hd as (r & Hr & Hin).
  exists r. split; [apply list_elem_of_In, Hin | exact Hr].
Qed.

End AggregationFacts.

(** ** Sleep debt and first-day behaviour *)

Section DebtAndFirstDay.

Lemma sleepScore_full_iff (m : Q) : sleepScore m == 1 <-> 480 <= m.
Proof.
  destruct (sleepScore_cases m) as (H0 & Hmid & H1). split; [|exact H1].
  intros Hfull. destruct (Qlt_le_dec m 480) as [Hlt|Hge]; [|exact Hge].
  exfalso. destruct (Qlt_le_dec m 0) as [Hneg|Hpos].
  - rewrite H0 in Hfull by lra. discriminate Hfull.
  - rewrite Hmid in Hfull by (split; lra). lra.
Qed.

Lemma stageSum_nonneg (rows : list SleepRow) (d s : string) :
  (forall r, r ∈ rows -> 0 <= default 0 (mins r)) -> 0 <= Spec.stageSum rows d s.
Proof.
  induction rows as [|r rows IH]; intros H; simpl; [lra|].
  assert (0 <= Spec.stageSum rows d s) as Hrest
    by (apply IH; intros r' Hr'; apply H; right; exact Hr').
  assert (0 <= default 0 (mins r)) as Hr by (apply H; left).
  destruct (bool_decide (date r = d) && bool_decide (stage r = s)); lra.
Qed.

(** X17: the sleep-debt series has one value per aligned date; a value is
    non-negative exactly when the sleep score of that date's total is at its
    cap of 1; and when no row has negative minutes no value is below -480. *)
Theorem sleep_debt_series (rows : list SleepRow) :
  length (sleepDebt rows) = length (sleepDates rows) /\
  Forall2 (fun d x => 0 <= x <-> sleepScore (totalSleepMinutes (sleepByDate rows) d) == 1)
          (sleepDates rows) (sleepDebt rows) /\
  ((forall r, r ∈ rows -> 0 <= default 0 (mins r)) ->
   Forall (fun x => -480 <= x) (sleepDebt rows)).
Proof.
  unfold sleepDebt. split; [apply length_map|]. split.
  - induction (sleepDates rows) as [|d ds IH]; simpl; constructor; [|exact IH].
    rewrite sleepScore_full_iff. split; intros; lra.
  - intros Hpos. apply Forall_forall. intros x Hx.
    apply list_elem_of_In, in_map_iff in Hx as (d & <- & _).
    rewrite totalSleepMinutes_sum.
    pose proof (stageSum_nonneg rows d "Light sleep" Hpos).
    pose proof (stageSum_nonneg rows d "Deep sleep" Hpos).
    pose proof (stageSum_nonneg rows d "REM sleep" Hpos).
    lra.
Qed.

(** X18: with a single steps row the steps score is 1, whatever the count
    (a count of 0 or a missing count included): the day is its own average. *)
Theorem lone_steps_row_scores_one (s : Snapshot) (r : StepsRow) :
  steps7 s = [r] -> exists c, components s = Some c /\ c_steps c = 1.0.
Proof.
  intros H. unfold components. rewrite yesterday_total, H. simpl.
  eexists. split; [reflexivity|]. simpl.
  unfold rel. destruct (JS.truthyNum (sAvg [r])) eqn:E; [|reflexivity].
  apply truthyNum_true in E. simpl.
  transitivity (stepsScore 1); [|reflexivity].
  apply stepsScore_comp.
  assert (sAvg [r] == JS.orZero (steps r)) as Hs.
  { unfold sAvg, stepsVals, JS.sum, JS.len. simpl. field. }
  rewrite Hs in E |- *. field. exact E.
Qed.

Lemma lone_steps_row_scores_one_witness :
  exists c,
    components {| sleepRows := []; hr7 := []; hrIntra := []; cal7 := [];
                  steps7 := [ {| steps_date := "2024-05-03"; steps := Some 12345 |} ] |}
      = Some c /\
    c_steps c = 1.0.
Proof. eapply lone_steps_row_scores_one. reflexivity. Defined.

End DebtAndFirstDay.

(** ** The gauge without sleep data *)

Section GaugeWithoutSleep.

(** X19: without sleep for the last aligned date (no sleep rows at all, in
    particular) the readiness value is at most 50 and the gauge is in its
    lowest zone, whatever the heart-rate and steps series are. *)
Theorem no_sleep_means_recover (s : Snapshot) :
  sleepMin (sleepRows s) <= 0 ->
  exists v : Z,
    readiness s = Some v /\ (v <= 50)%Z /\
    Gauge.zone (Gauge.val (inject_Z v)) = Gauge.bad /\
    Gauge.caption (Gauge.zone (Gauge.val (inject_Z v))) = "Recover".
Proof.
  intros Hsleep.
  assert (exists v : Z, readiness s = Some v /\ (16 <= v)%Z /\ (v <= 50)%Z)
    as (v & Hr & Hlo & Hhi).
  { unfold readiness, components. rewrite yesterday_total. simpl.
    eexists. split; [reflexivity|].
    destruct (sleepScore_cases (sleepMin (sleepRows s))) as (H0 & _ & _).
    specialize (H0 Hsleep).
    pose proof (stepsScore_range (rel (steps7 s))) as Ht.
    pose proof (stepsScore_min (rel (steps7 s))) as Ht'.
    match goal with |- context [hrScore ?y ?w] =>
      pose proof (hrScore_range y w) as Hh end.
    unfold composite. simpl. apply Math_round_bounds.
    - change (inject_Z 16) with 16. rewrite H0. lra.
    - change (inject_Z 50) with 50. rewrite H0. lra. }
  exists v. split; [exact Hr|]. split; [exact Hhi|].
  assert (Gauge.val (inject_Z v) = v) as ->
    by (unfold Gauge.val; rewrite Math_round_integer; lia).
  assert (Gauge.zone v = Gauge.bad) as ->; [|split; reflexivity].
  unfold Gauge.zone.
  destruct (80 <=? v)%Z eqn:E1; [apply Z.leb_le in E1; lia|].
  destruct (60 <=? v)%Z eqn:E2; [apply Z.leb_le in E2; lia|]. reflexivity.
Qed.

Lemma no_sleep_means_recover_witness :
  exists v : Z,
    readiness {| sleepRows := []; hr7 := sampleHR; hrIntra := [];
                 steps7 := sampleSteps; cal7 := [] |} = Some v /\ (v <= 50)%Z /\
    Gauge.zone (Gauge.val (inject_Z v)) = Gauge.bad /\
    Gauge.caption (Gauge.zone (Gauge.val (inject_Z v))) = "Recover".
Proof. apply no_sleep_means_recover. vm_compute. discriminate. Defined.

End GaugeWithoutSleep.
